(** * Reservation / authorization workflow of the pharmacy marketplace backend

    A shallow embedding of the Express controllers

      - [Backend/controllers/reservationController.js]
        ([createReservation], [updateReservationStatus], [deleteReservation]),
      - [Backend/controllers/pharmacyController.js] ([createPharmacy]),

    together with the Mongoose schemas they rely on ([models/Pharmacy.js],
    [models/Medicine.js], [models/Reservation.js]) and the express-validator
    chains of the routes ([routes/reservations.js], [routes/pharmacies.js]).

    Collections are lists of documents in insertion order, so that [findOne]
    returns the first matching document.  ObjectIds are natural numbers: the
    controllers only ever compare them ([a.toString() !== b.toString()]).
    Roles and reservation statuses are strings, exactly as in the JavaScript
    code.  The database is always reachable; the only exceptions a handler can
    observe are the ones Mongoose raises itself (schema validation, the
    duplicate-key error of a unique index, and the cast error of an id that
    is not an ObjectId).

    Most handlers are stated on an id that is an ObjectId.  The handlers
    whose name ends in [_url] take [req.params.id] as it stands in the URL,
    where it need not be one. *)

From Stdlib Require Import List String Ascii Bool Arith PeanoNat NArith Lia.
Import ListNotations.
Open Scope string_scope.
Open Scope bool_scope.
Open Scope nat_scope.

Set Implicit Arguments.

(** ** Basic types *)

Definition ObjectId := nat.
Definition Timestamp := nat.

(** [array.includes(x)] on an array of strings. *)
Definition includes (l : list string) (x : string) : bool :=
  existsb (String.eqb x) l.

(** JavaScript [String.prototype.trim], restricted to the ASCII white space
    characters (tab, line feed, vertical tab, form feed, carriage return,
    space). *)
Definition is_space (c : ascii) : bool :=
  let n := nat_of_ascii c in
  ((9 <=? n) && (n <=? 13)) || (n =? 32).

Fixpoint trimStart (l : list ascii) : list ascii :=
  match l with
  | c :: l' => if is_space c then trimStart l' else l
  | [] => []
  end.

Definition trim (s : string) : string :=
  string_of_list_ascii
    (rev (trimStart (rev (trimStart (list_ascii_of_string s))))).

(** ** Documents (Mongoose schemas) *)

Module User.
(** [req.user], attached by the authentication middleware; the controllers
    read [_id] and [role] only. *)
Record t := mk { _id : ObjectId; role : string }.
End User.

Module Pharmacy.
Record t := mk {
  _id : ObjectId;
  name : string;
  location : string;
  license : string;
  contact : string;
  verified : bool;
  user : ObjectId;
  createdAt : Timestamp;
  updatedAt : Timestamp
}.

(** The paths a client may send in [req.body]; [user] is always overwritten
    by the controller.  A body that also sets [_id] or the dates is outside
    this type. *)
Record fields := mkFields {
  f_name : string;
  f_location : string;
  f_license : string;
  f_contact : string;
  f_verified : option bool
}.

Definition findOne (filter : t -> bool) (coll : list t) : option t :=
  find filter coll.

Definition findById (id : ObjectId) (coll : list t) : option t :=
  find (fun p => _id p =? id) coll.

(** Schema validators, run on the values after the [trim] setters:
    [required] on name, location, license and contact (an empty string does
    not satisfy it) and [maxlength: 100] on name. *)
Definition validate (p : t) : bool :=
  negb (name p =? "")%string && (String.length (name p) <=? 100)
  && negb (location p =? "")%string
  && negb (license p =? "")%string
  && negb (contact p =? "")%string.
End Pharmacy.

Module Medicine.
(** [price] is a JavaScript number that no handler below reads; it is left
    out of the record. *)
Record t := mk {
  _id : ObjectId;
  name : string;
  strength : string;
  availability : bool;
  pharmacy : ObjectId;
  createdAt : Timestamp;
  updatedAt : Timestamp
}.

Definition findById (id : ObjectId) (coll : list t) : option t :=
  find (fun m => _id m =? id) coll.
End Medicine.

Module Reservation.
Record t := mk {
  _id : ObjectId;
  user : ObjectId;
  medicine : ObjectId;
  pharmacy : ObjectId;
  status : string;
  createdAt : Timestamp;
  updatedAt : Timestamp
}.

(** [enum: ['pending', 'confirmed', 'cancelled']] *)
Definition status_enum : list string := ["pending"; "confirmed"; "cancelled"].

(** The document with its [status] path set, all other paths kept. *)
Definition set_status (s : string) (r : t) : t :=
  mk (_id r) (user r) (medicine r) (pharmacy r) s (createdAt r) (updatedAt r).

Definition findOne (filter : t -> bool) (coll : list t) : option t :=
  find filter coll.

Definition findById (id : ObjectId) (coll : list t) : option t :=
  find (fun r => _id r =? id) coll.

(** [updateOne({ _id: id }, { status })]: the first document with that
    [_id] gets the new status. *)
Fixpoint updateById (id : ObjectId) (s : string) (coll : list t) : list t :=
  match coll with
  | [] => []
  | r :: coll' =>
      if _id r =? id then set_status s r :: coll'
      else r :: updateById id s coll'
  end.

(** [deleteOne({ _id: id })]: the first document with that [_id] goes. *)
Fixpoint deleteById (id : ObjectId) (coll : list t) : list t :=
  match coll with
  | [] => []
  | r :: coll' =>
      if _id r =? id then coll' else r :: deleteById id coll'
  end.
End Reservation.

(** ** The entity store *)

Record Store := mkStore {
  pharmacies : list Pharmacy.t;
  medicines : list Medicine.t;
  reservations : list Reservation.t
}.

(** A new ObjectId never equals one already present in the collection. *)
Definition newObjectId (ids : list ObjectId) : ObjectId := S (list_max ids).

(** Errors thrown by Mongoose inside a handler's [try] block. *)
Inductive Exception :=
| ValidationError            (* schema validator failed, no [code] *)
| MongoServerError (code : N)
| CastError.                 (* a value that is not an ObjectId, no [code] *)

(** ** HTTP responses

    [data] carries the document as stored, with its references as ids:
    [populate] only replaces references by sub-documents in the JSON that is
    sent, and is left out. *)

Inductive Document :=
| Null
| ReservationDoc (r : Reservation.t)
| PharmacyDoc (p : Pharmacy.t).

Module Response.
(** [res.status(code).json({ success, message, errors, data })]; a key that
    the handler does not send is [None]. *)
Record t := mk {
  status : nat;
  success : bool;
  message : option string;
  errors : option (list string);
  data : option Document
}.
End Response.

Definition json_message (code : nat) (ok : bool) (msg : string) : Response.t :=
  Response.mk code ok (Some msg) None None.

Definition json_errors (code : nat) (msg : string) (errs : list string) : Response.t :=
  Response.mk code false (Some msg) (Some errs) None.

Definition json_data (code : nat) (d : Document) : Response.t :=
  Response.mk code true None None (Some d).

(** The error kinds of the API, as the transport-level status codes. *)
Definition NotFound (r : Response.t) : Prop := Response.status r = 404.
Definition Forbidden (r : Response.t) : Prop := Response.status r = 403.
Definition BadRequest (r : Response.t) : Prop := Response.status r = 400.
Definition Succeeds (r : Response.t) : Prop :=
  Response.success r = true /\ (Response.status r = 200 \/ Response.status r = 201).

(** ** Handler monad

    A handler body reads the store, may [return res.status(..).json(..)]
    early, may have an exception thrown by Mongoose, and performs at most a
    few writes.  [Handler A] threads the store and stops at the first early
    return or exception. *)

Inductive Outcome (A : Type) :=
| Value (a : A)
| Returned (r : Response.t)
| Thrown (e : Exception).

Arguments Returned {A} r.
Arguments Thrown {A} e.

Definition Handler (A : Type) := Store -> Outcome A * Store.

Definition ret {A} (a : A) : Handler A := fun db => (Value a, db).

Definition bind {A B} (m : Handler A) (k : A -> Handler B) : Handler B :=
  fun db =>
    match m db with
    | (Value a, db') => k a db'
    | (Returned r, db') => (Returned r, db')
    | (Thrown e, db') => (Thrown e, db')
    end.

(** [return res.status(..).json(..);] *)
Definition respond {A} (r : Response.t) : Handler A := fun db => (Returned r, db).

(** [if (c) { return res...; }] *)
Definition when_return (c : bool) (r : Response.t) : Handler unit :=
  if c then respond r else ret tt.

(** [try { body } catch (error) { handler }]: the whole handler function. *)
Definition try_catch (body : Handler Response.t)
    (handler : Exception -> Response.t) (db : Store) : Response.t * Store :=
  match body db with
  | (Value r, db') => (r, db')
  | (Returned r, db') => (r, db')
  | (Thrown e, db') => (handler e, db')
  end.

Declare Scope handler_scope.
Delimit Scope handler_scope with handler.
Notation "x <- m ;; k" := (bind m (fun x => k))
  (at level 61, m at next level, right associativity) : handler_scope.
Notation "m ;; k" := (bind m (fun _ => k))
  (at level 61, right associativity) : handler_scope.
Open Scope handler_scope.

(** ** Model operations as handler actions ([await Model.op(..)]) *)

Definition Medicine_findById (id : option ObjectId) : Handler (option Medicine.t) :=
  fun db =>
    (Value match id with
           | Some id => Medicine.findById id (medicines db)
           | None => None
           end, db).

Definition Pharmacy_findOne (filter : Pharmacy.t -> bool) : Handler (option Pharmacy.t) :=
  fun db => (Value (Pharmacy.findOne filter (pharmacies db)), db).

Definition Reservation_findOne (filter : Reservation.t -> bool)
  : Handler (option Reservation.t) :=
  fun db => (Value (Reservation.findOne filter (reservations db)), db).

Definition Reservation_findById (id : ObjectId) : Handler (option Reservation.t) :=
  fun db => (Value (Reservation.findById id (reservations db)), db).

(** An id taken from the request body equals a stored one. *)
Definition same_id (a : option ObjectId) (b : ObjectId) : bool :=
  match a with Some a => a =? b | None => false end.

(** [Reservation.create({ user, medicine, pharmacy })]: [medicine] is
    [required], [status] takes its schema default ['pending'], both dates are
    the current time, and the document is appended to the collection. *)
Definition Reservation_create (now : Timestamp) (user : ObjectId)
    (medicine : option ObjectId) (pharmacy : ObjectId) : Handler Reservation.t :=
  fun db =>
    match medicine with
    | None => (Thrown ValidationError, db)
    | Some medicine =>
        let doc :=
          Reservation.mk (newObjectId (map Reservation._id (reservations db)))
            user medicine pharmacy "pending" now now in
        (Value doc,
         mkStore (pharmacies db) (medicines db) (reservations db ++ [doc])%list)
    end.

(** [Reservation.findByIdAndUpdate(id, { status }, { new: true,
    runValidators: true })]: the update validators check [status] against
    the schema enum and throw when it is not a member; otherwise the matching
    document is updated and returned in its new state ([null] when there is
    none). *)
Definition Reservation_findByIdAndUpdate (id : ObjectId) (status : string)
  : Handler (option Reservation.t) :=
  fun db =>
    if negb (includes Reservation.status_enum status) then (Thrown ValidationError, db)
    else
      let coll := Reservation.updateById id status (reservations db) in
      (Value (Reservation.findById id coll),
       mkStore (pharmacies db) (medicines db) coll).

Definition Reservation_findByIdAndDelete (id : ObjectId) : Handler (option Reservation.t) :=
  fun db =>
    (Value (Reservation.findById id (reservations db)),
     mkStore (pharmacies db) (medicines db)
       (Reservation.deleteById id (reservations db))).

(** [Pharmacy.create({ ...req.body, user })]: setters trim the strings,
    [verified] defaults to [false], the schema validators run, and the unique
    index on [license] rejects a duplicate with error code 11000. *)
Definition Pharmacy_create (now : Timestamp) (b : Pharmacy.fields) (user : ObjectId)
  : Handler Pharmacy.t :=
  fun db =>
    let doc :=
      Pharmacy.mk (newObjectId (map Pharmacy._id (pharmacies db)))
        (trim (Pharmacy.f_name b)) (trim (Pharmacy.f_location b))
        (trim (Pharmacy.f_license b)) (trim (Pharmacy.f_contact b))
        match Pharmacy.f_verified b with Some v => v | None => false end
        user now now in
    if negb (Pharmacy.validate doc) then (Thrown ValidationError, db)
    else if existsb (fun p => Pharmacy.license p =? Pharmacy.license doc)%string
              (pharmacies db)
    then (Thrown (MongoServerError 11000%N), db)
    else (Value doc, mkStore (pharmacies db ++ [doc])%list (medicines db) (reservations db)).

(** ** Requests and express-validator *)

Module Req.
(** [P] is the type of [req.params], [B] of [req.body]; [validation] is
    what the route's validation chain has recorded for the request. *)
Record t (P B : Type) := mk {
  user : User.t;
  params : P;
  body : B;
  validation : list string
}.
End Req.

(** [validationResult(req)] and [errors.isEmpty()] *)
Definition validationResult {P B} (req : Req.t P B) : list string :=
  Req.validation req.

Definition isEmpty (errors : list string) : bool :=
  match errors with [] => true | _ => false end.

(** A validation chain sanitizes the body and reports error messages. *)
Definition Chain (B : Type) := B -> B * list string.

Definition runValidation {P B} (chain : Chain B) (req : Req.t P B) : Req.t P B :=
  let (b, errors) := chain (Req.body req) in
  Req.mk (Req.user req) (Req.params req) b (Req.validation req ++ errors)%list.

(** Bodies of the reservation routes.  [medicine] is [None] when the field is
    absent or is not a Mongo id.  Both fields are JSON strings when present:
    a body that carries an array in their place is outside these types. *)
Record CreateReservationBody := { medicine : option ObjectId }.
Record UpdateStatusBody := { status : string }.

(** routes/reservations.js *)
Definition createReservationValidation : Chain CreateReservationBody :=
  fun b =>
    (b, match medicine b with
        | Some _ => []
        | None => ["Valid medicine ID is required"]
        end).

Definition updateStatusValidation : Chain UpdateStatusBody :=
  fun b =>
    (b, if includes ["pending"; "confirmed"; "cancelled"] (status b) then []
        else ["Status must be pending, confirmed, or cancelled"]).

(** routes/pharmacies.js.  Lengths are those of ASCII strings, where
    characters and bytes coincide. *)
Definition pharmacyValidation : Chain Pharmacy.fields :=
  fun b =>
    let name := trim (Pharmacy.f_name b) in
    let location := trim (Pharmacy.f_location b) in
    let license := trim (Pharmacy.f_license b) in
    let contact := trim (Pharmacy.f_contact b) in
    (Pharmacy.mkFields name location license contact (Pharmacy.f_verified b),
     ((if (2 <=? String.length name) && (String.length name <=? 100) then []
       else ["Name must be between 2 and 100 characters"])
      ++ (if (location =? "")%string then ["Location is required"] else [])
      ++ (if (license =? "")%string then ["License number is required"] else [])
      ++ (if (contact =? "")%string then ["Contact information is required"] else []))%list).

(** ** Controllers *)

Definition server_error (error : Exception) : Response.t :=
  json_message 500 false "Server error".

(** JavaScript truthiness of a query result ([null] is falsy). *)
Definition truthy {A} (x : option A) : bool :=
  match x with Some _ => true | None => false end.

Definition document (r : option Reservation.t) : Document :=
  match r with Some r => ReservationDoc r | None => Null end.

Section ReservationController.

(** [Date.now()] while the request is served. *)
Variable now : Timestamp.

(** POST /api/reservations *)
Definition createReservation (req : Req.t unit CreateReservationBody)
  : Store -> Response.t * Store :=
  try_catch
    (let errors := validationResult req in
     when_return (negb (isEmpty errors))
       (json_errors 400 "Validation failed" errors) ;;
     let medicineId := medicine (Req.body req) in
     (* Check if medicine exists and is available *)
     medicine <- Medicine_findById medicineId ;;
     match medicine with
     | None => respond (json_message 404 false "Medicine not found")
     | Some medicine =>
         when_return (negb (Medicine.availability medicine))
           (json_message 400 false "Medicine is not available") ;;
         (* Check if user already has a pending reservation for this medicine *)
         existingReservation <-
           Reservation_findOne (fun r =>
             (Reservation.user r =? User._id (Req.user req))
             && same_id medicineId (Reservation.medicine r)
             && (Reservation.status r =? "pending")%string) ;;
         when_return (truthy existingReservation)
           (json_message 400 false
              "You already have a pending reservation for this medicine") ;;
         reservation <-
           Reservation_create now (User._id (Req.user req)) medicineId
             (Medicine.pharmacy medicine) ;;
         ret (json_data 201 (ReservationDoc reservation))
     end)
    server_error.

(** PUT /api/reservations/:id *)
Definition updateReservationStatus (req : Req.t ObjectId UpdateStatusBody)
  : Store -> Response.t * Store :=
  try_catch
    (let errors := validationResult req in
     when_return (negb (isEmpty errors))
       (json_errors 400 "Validation failed" errors) ;;
     let status := status (Req.body req) in
     reservation <- Reservation_findById (Req.params req) ;;
     match reservation with
     | None => respond (json_message 404 false "Reservation not found")
     | Some reservation =>
         (* Check permissions *)
         (if (User.role (Req.user req) =? "consumer")%string then
            (* Consumers can only update their own reservations *)
            when_return
              (negb (Reservation.user reservation =? User._id (Req.user req)))
              (json_message 403 false "Not authorized to update this reservation") ;;
            (* Consumers can only cancel their reservations *)
            when_return (negb (status =? "cancelled")%string)
              (json_message 400 false "Consumers can only cancel reservations")
          else if (User.role (Req.user req) =? "pharmacy")%string then
            (* Pharmacy owners can only update reservations for their pharmacy *)
            pharmacy <-
              Pharmacy_findOne (fun p => Pharmacy.user p =? User._id (Req.user req)) ;;
            when_return
              (negb (truthy pharmacy)
               || match pharmacy with
                  | Some pharmacy =>
                      negb (Reservation.pharmacy reservation =? Pharmacy._id pharmacy)
                  | None => true
                  end)
              (json_message 403 false "Not authorized to update this reservation") ;;
            (* Pharmacy owners can only confirm or cancel reservations *)
            when_return (negb (includes ["confirmed"; "cancelled"] status))
              (json_message 400 false "Invalid status for pharmacy update")
          else ret tt) ;;
         reservation <- Reservation_findByIdAndUpdate (Req.params req) status ;;
         ret (json_data 200 (document reservation))
     end)
    server_error.

(** DELETE /api/reservations/:id *)
Definition deleteReservation {B} (req : Req.t ObjectId B)
  : Store -> Response.t * Store :=
  try_catch
    (reservation <- Reservation_findById (Req.params req) ;;
     match reservation with
     | None => respond (json_message 404 false "Reservation not found")
     | Some reservation =>
         (* Check permissions *)
         (if (User.role (Req.user req) =? "consumer")%string then
            when_return
              (negb (Reservation.user reservation =? User._id (Req.user req)))
              (json_message 403 false "Not authorized to delete this reservation")
          else if (User.role (Req.user req) =? "pharmacy")%string then
            pharmacy <-
              Pharmacy_findOne (fun p => Pharmacy.user p =? User._id (Req.user req)) ;;
            when_return
              (negb (truthy pharmacy)
               || match pharmacy with
                  | Some pharmacy =>
                      negb (Reservation.pharmacy reservation =? Pharmacy._id pharmacy)
                  | None => true
                  end)
              (json_message 403 false "Not authorized to delete this reservation")
          else ret tt) ;;
         Reservation_findByIdAndDelete (Req.params req) ;;
         ret (json_message 200 true "Reservation deleted successfully")
     end)
    server_error.

End ReservationController.

Section PharmacyController.

Variable now : Timestamp.

(** POST /api/pharmacies *)
Definition createPharmacy (req : Req.t unit Pharmacy.fields)
  : Store -> Response.t * Store :=
  try_catch
    (let errors := validationResult req in
     when_return (negb (isEmpty errors))
       (json_errors 400 "Validation failed" errors) ;;
     (* Check if user already has a pharmacy *)
     existingPharmacy <-
       Pharmacy_findOne (fun p => Pharmacy.user p =? User._id (Req.user req)) ;;
     when_return (truthy existingPharmacy)
       (json_message 400 false "User already has a pharmacy") ;;
     pharmacy <- Pharmacy_create now (Req.body req) (User._id (Req.user req)) ;;
     ret (json_data 201 (PharmacyDoc pharmacy)))
    (fun error =>
       match error with
       | MongoServerError 11000 => json_message 400 false "License number already exists"
       | _ => json_message 500 false "Server error"
       end).

End PharmacyController.

(** ** A sample store (after the seed script: one pharmacy owner, one
    pharmacy, consumers and their reservations) *)

Module Sample.
Definition admin := User.mk 1 "admin".
Definition owner := User.mk 2 "pharmacy".
Definition U1 := User.mk 3 "consumer".
Definition U2 := User.mk 4 "consumer".
Definition newcomer := User.mk 5 "pharmacy".
Definition guest := User.mk 6 "guest".

Definition P1 :=
  Pharmacy.mk 10 "Afya Chemist" "Nairobi" "PPB-001" "0700000000" true 2 100 100.
Definition M1 := Medicine.mk 20 "Paracetamol" "500mg" true 10 110 110.
Definition M2 := Medicine.mk 21 "Amoxicillin" "250mg" false 10 111 111.
Definition R1 := Reservation.mk 30 3 20 10 "pending" 120 120.
Definition R2 := Reservation.mk 31 3 21 10 "cancelled" 121 121.

Definition db := mkStore [P1] [M1; M2] [R1; R2].

Definition put (u : User.t) (id : ObjectId) (s : string)
  : Req.t ObjectId UpdateStatusBody :=
  runValidation updateStatusValidation (Req.mk u id {| status := s |} []).

Definition del (u : User.t) (id : ObjectId) : Req.t ObjectId unit :=
  Req.mk u id tt [].

Definition post (u : User.t) (m : option ObjectId)
  : Req.t unit CreateReservationBody :=
  runValidation createReservationValidation (Req.mk u tt {| medicine := m |} []).

Definition post_pharmacy (u : User.t) (b : Pharmacy.fields)
  : Req.t unit Pharmacy.fields :=
  runValidation pharmacyValidation (Req.mk u tt b []).
End Sample.

(** ** The id of the URL

    [req.params.id] is whatever the client wrote after the last slash; no
    route validates it.  Mongoose casts it when it builds the query of
    [findById], [findByIdAndUpdate] or [findByIdAndDelete], and the cast of a
    string that is not an ObjectId throws a CastError. *)

Inductive IdParam :=
| IsObjectId (id : ObjectId)
| NotObjectId (raw : string).

Definition castObjectId (p : IdParam) : Handler ObjectId :=
  fun db =>
    match p with
    | IsObjectId id => (Value id, db)
    | NotObjectId _ => (Thrown CastError, db)
    end.

Section ReservationControllerUrl.

(** PUT /api/reservations/:id, on the id as it stands in the URL. *)
Definition updateReservationStatus_url (req : Req.t IdParam UpdateStatusBody)
  : Store -> Response.t * Store :=
  try_catch
    (let errors := validationResult req in
     when_return (negb (isEmpty errors))
       (json_errors 400 "Validation failed" errors) ;;
     let status := status (Req.body req) in
     reservation <-
       (id <- castObjectId (Req.params req) ;; Reservation_findById id) ;;
     match reservation with
     | None => respond (json_message 404 false "Reservation not found")
     | Some reservation =>
         (* Check permissions *)
         (if (User.role (Req.user req) =? "consumer")%string then
            when_return
              (negb (Reservation.user reservation =? User._id (Req.user req)))
              (json_message 403 false "Not authorized to update this reservation") ;;
            when_return (negb (status =? "cancelled")%string)
              (json_message 400 false "Consumers can only cancel reservations")
          else if (User.role (Req.user req) =? "pharmacy")%string then
            pharmacy <-
              Pharmacy_findOne (fun p => Pharmacy.user p =? User._id (Req.user req)) ;;
            when_return
              (negb (truthy pharmacy)
               || match pharmacy with
                  | Some pharmacy =>
                      negb (Reservation.pharmacy reservation =? Pharmacy._id pharmacy)
                  | None => true
                  end)
              (json_message 403 false "Not authorized to update this reservation") ;;
            when_return (negb (includes ["confirmed"; "cancelled"] status))
              (json_message 400 false "Invalid status for pharmacy update")
          else ret tt) ;;
         reservation <-
           (id <- castObjectId (Req.params req) ;;
            Reservation_findByIdAndUpdate id status) ;;
         ret (json_data 200 (document reservation))
     end)
    server_error.

(** DELETE /api/reservations/:id, on the id as it stands in the URL. *)
Definition deleteReservation_url {B} (req : Req.t IdParam B)
  : Store -> Response.t * Store :=
  try_catch
    (reservation <-
       (id <- castObjectId (Req.params req) ;; Reservation_findById id) ;;
     match reservation with
     | None => respond (json_message 404 false "Reservation not found")
     | Some reservation =>
         (* Check permissions *)
         (if (User.role (Req.user req) =? "consumer")%string then
            when_return
              (negb (Reservation.user reservation =? User._id (Req.user req)))
              (json_message 403 false "Not authorized to delete this reservation")
          else if (User.role (Req.user req) =? "pharmacy")%string then
            pharmacy <-
              Pharmacy_findOne (fun p => Pharmacy.user p =? User._id (Req.user req)) ;;
            when_return
              (negb (truthy pharmacy)
               || match pharmacy with
                  | Some pharmacy =>
                      negb (Reservation.pharmacy reservation =? Pharmacy._id pharmacy)
                  | None => true
                  end)
              (json_message 403 false "Not authorized to delete this reservation")
          else ret tt) ;;
         (id <- castObjectId (Req.params req) ;; Reservation_findByIdAndDelete id) ;;
         ret (json_message 200 true "Reservation deleted successfully")
     end)
    server_error.

End ReservationControllerUrl.

(** The request with its id replaced by the ObjectId it was cast to. *)
Definition with_id {B} (id : ObjectId) (req : Req.t IdParam B) : Req.t ObjectId B :=
  Req.mk (Req.user req) id (Req.body req) (Req.validation req).

(** ** The other handlers of the controllers *)

(** [deleteOne] on a collection: the first document the filter accepts goes. *)
Fixpoint remove_first {A} (f : A -> bool) (l : list A) : list A :=
  match l with
  | [] => []
  | x :: l' => if f x then l' else x :: remove_first f l'
  end.

Definition Pharmacy_findById (id : ObjectId) : Handler (option Pharmacy.t) :=
  fun db => (Value (Pharmacy.findById id (pharmacies db)), db).

Definition Pharmacy_findByIdAndDelete (id : ObjectId) : Handler (option Pharmacy.t) :=
  fun db =>
    (Value (Pharmacy.findById id (pharmacies db)),
     mkStore (remove_first (fun p => Pharmacy._id p =? id) (pharmacies db))
       (medicines db) (reservations db)).

Definition Medicine_findByIdAndDelete (id : ObjectId) : Handler (option Medicine.t) :=
  fun db =>
    (Value (Medicine.findById id (medicines db)),
     mkStore (pharmacies db)
       (remove_first (fun m => Medicine._id m =? id) (medicines db))
       (reservations db)).

(** Reading a property of [null] throws a TypeError.  Every handler below
    that can do so has a [catch] block that answers any error with 500
    "Server error"; the early return stands for the throw and the catch. *)
Definition null_dereference {A} : Handler A :=
  respond (json_message 500 false "Server error").

(** A reservation after [populate('user', ..)] and [populate('pharmacy', ..)]:
    a populated path is [null] when the referenced document does not exist.
    The populated [medicine] is never read by the handler and is left out. *)
Record Populated := mkPopulated {
  doc : Reservation.t;
  populated_user : option ObjectId;       (* [reservation.user._id] *)
  populated_pharmacy : option Pharmacy.t
}.

Section ReadReservation.

(** The [_id]s of the User documents; the User model is not part of the
    store above. *)
Variable users : list ObjectId.

Definition populate (db : Store) (r : Reservation.t) : Populated :=
  mkPopulated r
    (if existsb (Nat.eqb (Reservation.user r)) users
     then Some (Reservation.user r) else None)
    (Pharmacy.findById (Reservation.pharmacy r) (pharmacies db)).

Definition Reservation_findById_populate (id : ObjectId)
  : Handler (option Populated) :=
  fun db =>
    (Value match Reservation.findById id (reservations db) with
           | Some r => Some (populate db r)
           | None => None
           end, db).

(** GET /api/reservations/:id *)
Definition getReservation {B} (req : Req.t ObjectId B)
  : Store -> Response.t * Store :=
  try_catch
    (reservation <- Reservation_findById_populate (Req.params req) ;;
     match reservation with
     | None => respond (json_message 404 false "Reservation not found")
     | Some reservation =>
         (* Check if user can view this reservation *)
         (if (User.role (Req.user req) =? "consumer")%string then
            match populated_user reservation with
            | None => null_dereference
            | Some user_id =>
                when_return (negb (user_id =? User._id (Req.user req)))
                  (json_message 403 false "Not authorized to view this reservation")
            end
          else ret tt) ;;
         (if (User.role (Req.user req) =? "pharmacy")%string then
            pharmacy <-
              Pharmacy_findOne (fun p => Pharmacy.user p =? User._id (Req.user req)) ;;
            match pharmacy with
            | None =>
                respond
                  (json_message 403 false "Not authorized to view this reservation")
            | Some pharmacy =>
                match populated_pharmacy reservation with
                | None => null_dereference
                | Some reservation_pharmacy =>
                    when_return
                      (negb (Pharmacy._id reservation_pharmacy =? Pharmacy._id pharmacy))
                      (json_message 403 false
                         "Not authorized to view this reservation")
                end
            end
          else ret tt) ;;
         ret (json_data 200 (ReservationDoc (doc reservation)))
     end)
    server_error.

End ReadReservation.

Section MedicineController.

(** DELETE /api/medicines/:id *)
Definition deleteMedicine {B} (req : Req.t ObjectId B)
  : Store -> Response.t * Store :=
  try_catch
    (medicine <- Medicine_findById (Some (Req.params req)) ;;
     match medicine with
     | None => respond (json_message 404 false "Medicine not found")
     | Some medicine =>
         (* Check if user owns the pharmacy that owns this medicine *)
         pharmacy <- Pharmacy_findById (Medicine.pharmacy medicine) ;;
         match pharmacy with
         | None => null_dereference
         | Some pharmacy =>
             when_return (negb (Pharmacy.user pharmacy =? User._id (Req.user req)))
               (json_message 403 false "Not authorized to delete this medicine") ;;
             Medicine_findByIdAndDelete (Req.params req) ;;
             ret (json_message 200 true "Medicine deleted successfully")
         end
     end)
    server_error.

End MedicineController.

Section PharmacyControllerRest.

(** GET /api/pharmacies/:id *)
Definition getPharmacy {B} (req : Req.t ObjectId B)
  : Store -> Response.t * Store :=
  try_catch
    (pharmacy <- Pharmacy_findById (Req.params req) ;;
     match pharmacy with
     | None => respond (json_message 404 false "Pharmacy not found")
     | Some pharmacy => ret (json_data 200 (PharmacyDoc pharmacy))
     end)
    server_error.

(** GET /api/pharmacies/mypharmacy *)
Definition getMyPharmacy {P B} (req : Req.t P B)
  : Store -> Response.t * Store :=
  try_catch
    (pharmacy <-
       Pharmacy_findOne (fun p => Pharmacy.user p =? User._id (Req.user req)) ;;
     match pharmacy with
     | None => respond (json_message 404 false "No pharmacy found for this user")
     | Some pharmacy => ret (json_data 200 (PharmacyDoc pharmacy))
     end)
    server_error.

(** DELETE /api/pharmacies/:id *)
Definition deletePharmacy {B} (req : Req.t ObjectId B)
  : Store -> Response.t * Store :=
  try_catch
    (pharmacy <- Pharmacy_findById (Req.params req) ;;
     match pharmacy with
     | None => respond (json_message 404 false "Pharmacy not found")
     | Some pharmacy =>
         (* Make sure user owns pharmacy or is admin *)
         when_return
           (negb (Pharmacy.user pharmacy =? User._id (Req.user req))
            && negb (User.role (Req.user req) =? "admin")%string)
           (json_message 403 false "Not authorized to delete this pharmacy") ;;
         Pharmacy_findByIdAndDelete (Req.params req) ;;
         ret (json_message 200 true "Pharmacy deleted successfully")
     end)
    server_error.

(** PUT /api/pharmacies/:id, on the id as it stands in the URL.  The body
    goes to Mongoose as it is; what [Pharmacy.findByIdAndUpdate(id,
    req.body, { new: true, runValidators: true })] does with it is a
    parameter of the handler. *)
Variable UpdateBody : Type.
Variable Pharmacy_findByIdAndUpdate :
  ObjectId -> UpdateBody -> Handler (option Pharmacy.t).

Definition updatePharmacy (req : Req.t IdParam UpdateBody)
  : Store -> Response.t * Store :=
  try_catch
    (let errors := validationResult req in
     when_return (negb (isEmpty errors))
       (json_errors 400 "Validation failed" errors) ;;
     pharmacy <- (id <- castObjectId (Req.params req) ;; Pharmacy_findById id) ;;
     match pharmacy with
     | None => respond (json_message 404 false "Pharmacy not found")
     | Some pharmacy =>
         (* Make sure user owns pharmacy or is admin *)
         when_return
           (negb (Pharmacy.user pharmacy =? User._id (Req.user req))
            && negb (User.role (Req.user req) =? "admin")%string)
           (json_message 403 false "Not authorized to update this pharmacy") ;;
         pharmacy <-
           (id <- castObjectId (Req.params req) ;;
            Pharmacy_findByIdAndUpdate id (Req.body req)) ;;
         ret (json_data 200
                match pharmacy with Some p => PharmacyDoc p | None => Null end)
     end)
    (fun error =>
       match error with
       | MongoServerError 11000 => json_message 400 false "License number already exists"
       | _ => json_message 500 false "Server error"
       end).

End PharmacyControllerRest.

(** ** Routes

    A request enters a route with nothing validated yet; the route's chain
    runs, then the controller.  [protect] has attached [req.user]; the role
    gate [authorize('consumer')] of the POST route is not part of these
    definitions. *)

Definition incoming {P B} (u : User.t) (p : P) (b : B) : Req.t P B :=
  Req.mk u p b [].

(** [router.route('/:id').put(protect, updateStatusValidation,
    updateReservationStatus)] *)
Definition PUT_reservation (u : User.t) (id : ObjectId) (b : UpdateStatusBody) :=
  updateReservationStatus (runValidation updateStatusValidation (incoming u id b)).

(** The same route, on the id as it stands in the URL. *)
Definition PUT_reservation_url (u : User.t) (p : IdParam) (b : UpdateStatusBody) :=
  updateReservationStatus_url (runValidation updateStatusValidation (incoming u p b)).


(** ** Invariants of the store *)

(** No two documents of a collection share an [_id]. *)
Definition unique_ids (db : Store) : Prop :=
  NoDup (map Pharmacy._id (pharmacies db))
  /\ NoDup (map Medicine._id (medicines db))
  /\ NoDup (map Reservation._id (reservations db)).

(** The advisory rule of the duplicate check: a user has at most one pending
    reservation for a medicine. *)
Definition pending_key (r : Reservation.t) : ObjectId * ObjectId :=
  (Reservation.user r, Reservation.medicine r).

Definition one_pending_per_pair (db : Store) : Prop :=
  NoDup (map pending_key
           (filter (fun r => (Reservation.status r =? "pending")%string)
              (reservations db))).

(** No two pharmacies share a license (the unique index of the schema). *)
Definition unique_licenses (db : Store) : Prop :=
  NoDup (map Pharmacy.license (pharmacies db)).

(** ** Predicates used in the statements *)

(** What an update may do to one document: nothing, or set the status of a
    document whose [_id] is the target. *)
Definition status_only (id : ObjectId) (s : string) (r r' : Reservation.t) : Prop :=
  Reservation._id r' = Reservation._id r
  /\ Reservation.user r' = Reservation.user r
  /\ Reservation.medicine r' = Reservation.medicine r
  /\ Reservation.pharmacy r' = Reservation.pharmacy r
  /\ Reservation.createdAt r' = Reservation.createdAt r
  /\ Reservation.updatedAt r' = Reservation.updatedAt r
  /\ (Reservation.status r' = Reservation.status r
      \/ (Reservation._id r = id /\ Reservation.status r' = s)).


(** The filter of the duplicate check:
    [{ user: req.user._id, medicine: medicineId, status: 'pending' }]. *)
Definition pending_for (uid mid : ObjectId) (r : Reservation.t) : Prop :=
  Reservation.user r = uid
  /\ Reservation.medicine r = mid
  /\ Reservation.status r = "pending".

(** The pharmacy that [Pharmacy.findOne({ user: u._id })] returns, if any, is
    not the reservation's pharmacy: the condition
    [!pharmacy || reservation.pharmacy.toString() !== pharmacy._id.toString()]. *)
Definition not_servicing_owner (db : Store) (u : User.t) (r : Reservation.t) : Prop :=
  match Pharmacy.findOne (fun p => Pharmacy.user p =? User._id u) (pharmacies db) with
  | Some ph => Pharmacy._id ph <> Reservation.pharmacy r
  | None => True
  end.

(** [Pharmacy.findOne({ user: u._id })] exists and is the reservation's
    pharmacy: the negation of the condition the handlers answer 403 on. *)
Definition is_servicing_owner (db : Store) (u : User.t) (r : Reservation.t) : bool :=
  match Pharmacy.findOne (fun p => Pharmacy.user p =? User._id u) (pharmacies db) with
  | Some ph => Reservation.pharmacy r =? Pharmacy._id ph
  | None => false
  end.

(** The document [Reservation.create] builds. *)
Definition created_reservation (now : Timestamp) (db : Store)
    (uid mid pharmacy : ObjectId) : Reservation.t :=
  Reservation.mk (newObjectId (map Reservation._id (reservations db)))
    uid mid pharmacy "pending" now now.

Definition duplicate_filter (uid mid : ObjectId) (r : Reservation.t) : bool :=
  (Reservation.user r =? uid) && same_id (Some mid) (Reservation.medicine r)
  && (Reservation.status r =? "pending")%string.

(** The document [Pharmacy.create] builds from the body [b]. *)
Definition created_pharmacy (now : Timestamp) (db : Store) (u : User.t)
    (b : Pharmacy.fields) : Pharmacy.t :=
  Pharmacy.mk (newObjectId (map Pharmacy._id (pharmacies db)))
    (trim (Pharmacy.f_name b)) (trim (Pharmacy.f_location b))
    (trim (Pharmacy.f_license b)) (trim (Pharmacy.f_contact b))
    match Pharmacy.f_verified b with Some v => v | None => false end
    (User._id u) now now.

(** Some stored pharmacy has this license. *)
Definition license_taken (db : Store) (license : string) : bool :=
  existsb (fun p => (Pharmacy.license p =? license)%string) (pharmacies db).

(** What the two handlers answer when the id of the URL refers to no stored
    reservation. *)
Definition missing_answer (p : IdParam) : Response.t :=
  match p with
  | IsObjectId _ => json_message 404 false "Reservation not found"
  | NotObjectId _ => json_message 500 false "Server error"
  end.

(** ** Facts about the collections *)

Unset Implicit Arguments.

Section Collections.

Lemma Reservation_findById_In id coll r :
  Reservation.findById id coll = Some r ->
  In r coll /\ Reservation._id r = id.
Proof.
  unfold Reservation.findById. intros H.
  apply find_some in H. destruct H as [Hin Heq].
  split; [assumption | now apply Nat.eqb_eq].
Qed.

Lemma Reservation_findById_absent id coll :
  ~ In id (map Reservation._id coll) ->
  Reservation.findById id coll = None.
Proof.
  unfold Reservation.findById.
  induction coll as [|r coll IH]; intros Hnot; [reflexivity|].
  cbn [find]. destruct (Nat.eqb_spec (Reservation._id r) id) as [E|E].
  - exfalso. apply Hnot. left. exact E.
  - apply IH. intros Hin. apply Hnot. right. exact Hin.
Qed.

Lemma Reservation_findById_updateById id s coll r :
  Reservation.findById id coll = Some r ->
  Reservation.findById id (Reservation.updateById id s coll)
  = Some (Reservation.set_status s r).
Proof.
  unfold Reservation.findById.
  induction coll as [|x coll IH]; intros H; [discriminate|].
  cbn [find Reservation.updateById] in *.
  destruct (Reservation._id x =? id) eqn:E.
  - injection H as ->. cbn [find Reservation.set_status Reservation._id].
    now rewrite E.
  - cbn [find]. rewrite E. now apply IH.
Qed.

Lemma status_only_refl id s r : status_only id s r r.
Proof. unfold status_only. intuition. Qed.

Lemma Forall2_status_only_refl id s coll :
  Forall2 (status_only id s) coll coll.
Proof.
  induction coll; constructor; auto using status_only_refl.
Qed.

Lemma updateById_status_only id s coll :
  Forall2 (status_only id s) coll (Reservation.updateById id s coll).
Proof.
  induction coll as [|r coll IH]; cbn [Reservation.updateById]; [constructor|].
  destruct (Nat.eqb_spec (Reservation._id r) id) as [E|E].
  - constructor; [|apply Forall2_status_only_refl].
    unfold status_only; cbn. intuition.
  - constructor; [apply status_only_refl | exact IH].
Qed.


Lemma newObjectId_fresh ids : ~ In (newObjectId ids) ids.
Proof.
  unfold newObjectId. intros Hin.
  assert (Hle : Forall (fun k => k <= list_max ids) ids)
    by (apply list_max_le; lia).
  rewrite Forall_forall in Hle. specialize (Hle _ Hin). lia.
Qed.

Lemma Pharmacy_findOne_owner uid coll p :
  In p coll -> Pharmacy.user p = uid ->
  exists p', Pharmacy.findOne (fun q => Pharmacy.user q =? uid) coll = Some p'.
Proof.
  intros Hin Hu. unfold Pharmacy.findOne.
  destruct (find _ coll) as [p'|] eqn:F; [now exists p'|].
  exfalso. apply (find_none _ _ F) in Hin.
  apply Nat.eqb_neq in Hin. contradiction.
Qed.

Lemma Pharmacy_findOne_none uid coll :
  (forall p, In p coll -> Pharmacy.user p <> uid) ->
  Pharmacy.findOne (fun q => Pharmacy.user q =? uid) coll = None.
Proof.
  intros H. unfold Pharmacy.findOne.
  destruct (find _ coll) as [p|] eqn:F; [|reflexivity].
  apply find_some in F. destruct F as [Hin E].
  apply Nat.eqb_eq in E. exfalso. exact (H p Hin E).
Qed.

(** When a user owns at most one pharmacy, [findOne({ user })] is that
    pharmacy. *)
Lemma Pharmacy_findOne_unique uid coll p :
  In p coll -> Pharmacy.user p = uid ->
  (forall q, In q coll -> Pharmacy.user q = uid -> q = p) ->
  Pharmacy.findOne (fun q => Pharmacy.user q =? uid) coll = Some p.
Proof.
  intros Hin Hu Huniq.
  destruct (Pharmacy_findOne_owner uid coll p Hin Hu) as [p' F].
  rewrite F. f_equal.
  unfold Pharmacy.findOne in F. apply find_some in F. destruct F as [Hin' E].
  apply Nat.eqb_eq in E. now apply Huniq.
Qed.

Lemma Reservation_findOne_exists (f : Reservation.t -> bool) coll r :
  In r coll -> f r = true ->
  exists r', Reservation.findOne f coll = Some r'.
Proof.
  intros Hin Hf. unfold Reservation.findOne.
  destruct (find f coll) as [r'|] eqn:F; [now exists r'|].
  rewrite (find_none _ _ F _ Hin) in Hf. discriminate.
Qed.

Lemma Reservation_findOne_none (f : Reservation.t -> bool) coll :
  (forall r, In r coll -> f r = false) ->
  Reservation.findOne f coll = None.
Proof.
  intros H. unfold Reservation.findOne.
  destruct (find f coll) as [r|] eqn:F; [|reflexivity].
  apply find_some in F. destruct F as [Hin Hf].
  rewrite (H r Hin) in Hf. discriminate.
Qed.

End Collections.

(** Unfolds a controller down to the queries on the collections. *)
Ltac run_handler :=
  unfold validationResult in *;
  cbv [createReservation updateReservationStatus deleteReservation createPharmacy
       try_catch bind when_return respond ret validationResult
       Reservation_findById Reservation_findOne Medicine_findById
       Pharmacy_findOne Reservation_create Reservation_findByIdAndUpdate
       Reservation_findByIdAndDelete Pharmacy_create truthy isEmpty
       server_error document negb orb].

(** Evaluates the tests that have become closed, leaving the queries alone. *)
Ltac eval_tests :=
  cbn -[Reservation.findById Reservation.findOne Reservation.updateById
        Reservation.deleteById Pharmacy.findOne Medicine.findById].

(** ** What a passed validation means *)

Lemma updateStatusValidation_passes (u : User.t) (id : ObjectId)
    (b : UpdateStatusBody) :
  validationResult (runValidation updateStatusValidation (Req.mk u id b [])) = []
  <-> In (status b) Reservation.status_enum.
Proof.
  unfold validationResult, runValidation, updateStatusValidation. cbn.
  destruct (String.eqb_spec (status b) "pending") as [->|Hp]; cbn; [intuition|].
  destruct (String.eqb_spec (status b) "confirmed") as [->|Hc]; cbn; [intuition|].
  destruct (String.eqb_spec (status b) "cancelled") as [->|Hx]; cbn; [intuition|].
  split; [discriminate|].
  intros [H|[H|[H|[]]]]; symmetry in H; contradiction.
Qed.

Lemma createReservationValidation_passes (u : User.t)
    (b : CreateReservationBody) :
  validationResult (runValidation createReservationValidation (Req.mk u tt b [])) = []
  <-> exists mid, medicine b = Some mid.
Proof.
  unfold validationResult, runValidation, createReservationValidation. cbn.
  destruct (medicine b) as [mid|]; cbn.
  - split; [now exists mid | reflexivity].
  - split; [discriminate | intros [mid H]; discriminate H].
Qed.

(** ** Role gating of status updates *)

(** C1, as the code has it: a consumer asking for ["confirmed"] on an existing
    reservation is always refused and the store is left as it was; the
    refusal is 403 (Forbidden) when the consumer is not the requester and
    400 ("Consumers can only cancel reservations") when the consumer is the
    requester. *)
Theorem consumer_confirm_refused (req : Req.t ObjectId UpdateStatusBody)
    (db : Store) (r : Reservation.t) :
  validationResult req = [] ->
  User.role (Req.user req) = "consumer" ->
  Reservation.findById (Req.params req) (reservations db) = Some r ->
  status (Req.body req) = "confirmed" ->
  updateReservationStatus req db =
    (if Reservation.user r =? User._id (Req.user req)
     then json_message 400 false "Consumers can only cancel reservations"
     else json_message 403 false "Not authorized to update this reservation",
     db).
Proof.
  intros Hval Hrole Hfind Hstatus.
  run_handler. rewrite Hval, Hfind, Hrole, Hstatus. cbn.
  destruct (Reservation.user r =? User._id (Req.user req)); reflexivity.
Qed.

Lemma consumer_confirm_refused_witness :
  updateReservationStatus (Sample.put Sample.U2 30 "confirmed") Sample.db =
    (json_message 403 false "Not authorized to update this reservation", Sample.db).
Proof.
  exact (consumer_confirm_refused (Sample.put Sample.U2 30 "confirmed")
           Sample.db Sample.R1 eq_refl eq_refl eq_refl eq_refl).
Defined.

(** C1 as stated fails: the requester of reservation 30, a consumer, asks for
    ["confirmed"] and is answered 400, not 403. *)
Lemma consumer_confirm_requester_not_forbidden :
  User.role Sample.U1 = "consumer"
  /\ Reservation.findById 30 (reservations Sample.db) = Some Sample.R1
  /\ Reservation.user Sample.R1 = User._id Sample.U1
  /\ ~ Forbidden (fst (updateReservationStatus
                         (Sample.put Sample.U1 30 "confirmed") Sample.db)).
Proof.
  repeat split. unfold Forbidden. cbn. discriminate.
Qed.

(** ** Creating a reservation *)

Lemma pending_filter_true uid mid r :
  pending_for uid mid r ->
  (Reservation.user r =? uid) && same_id (Some mid) (Reservation.medicine r)
  && (Reservation.status r =? "pending")%string = true.
Proof.
  intros (Hu & Hm & Hs). cbn [same_id].
  rewrite Hu, Hm, Hs, !Nat.eqb_refl. reflexivity.
Qed.

Lemma pending_filter_false uid mid r :
  ~ pending_for uid mid r ->
  (Reservation.user r =? uid) && same_id (Some mid) (Reservation.medicine r)
  && (Reservation.status r =? "pending")%string = false.
Proof.
  intros Hnot. cbn [same_id].
  destruct (Nat.eqb_spec (Reservation.user r) uid) as [Hu|]; [|reflexivity].
  destruct (Nat.eqb_spec mid (Reservation.medicine r)) as [Hm|]; [|reflexivity].
  destruct (String.eqb_spec (Reservation.status r) "pending") as [Hs|]; [|reflexivity].
  exfalso. apply Hnot. repeat split; congruence.
Qed.

(** Whenever [createReservation] does not answer with success, the store it
    returns is the one it was given. *)
Lemma createReservation_failure_store (now : Timestamp)
    (req : Req.t unit CreateReservationBody) (db : Store) :
  Response.success (fst (createReservation now req db)) = false ->
  snd (createReservation now req db) = db.
Proof.
  run_handler.
  destruct (Req.validation req); [|reflexivity].
  destruct (medicine (Req.body req)) as [mid|]; [|reflexivity].
  destruct (Medicine.findById mid (medicines db)) as [m|]; [|reflexivity].
  destruct (Medicine.availability m); [|reflexivity].
  destruct (Reservation.findOne _ (reservations db)); [reflexivity|].
  cbn. discriminate.
Qed.

(** C2: on validated input the three preconditions are tested in the order
    medicine exists (404 "Medicine not found"), medicine available (400
    "Medicine is not available"), no pending reservation of the same user
    for the same medicine (400 "You already have a pending reservation for
    this medicine"); the first one that fails decides the answer.  On every
    answer other than success the store is returned unchanged, so no
    reservation is created. *)
Theorem createReservation_precondition_order (now : Timestamp)
    (req : Req.t unit CreateReservationBody) (db : Store) (mid : ObjectId) :
  validationResult req = [] ->
  medicine (Req.body req) = Some mid ->
  (Medicine.findById mid (medicines db) = None ->
   createReservation now req db =
     (json_message 404 false "Medicine not found", db))
  /\ (forall m,
        Medicine.findById mid (medicines db) = Some m ->
        Medicine.availability m = false ->
        createReservation now req db =
          (json_message 400 false "Medicine is not available", db))
  /\ (forall m r,
        Medicine.findById mid (medicines db) = Some m ->
        Medicine.availability m = true ->
        In r (reservations db) ->
        pending_for (User._id (Req.user req)) mid r ->
        createReservation now req db =
          (json_message 400 false
             "You already have a pending reservation for this medicine", db))
  /\ (Response.success (fst (createReservation now req db)) = false ->
      snd (createReservation now req db) = db).
Proof.
  intros Hval Hmid. repeat split.
  - intros Hnone. run_handler. rewrite Hval, Hmid, Hnone. reflexivity.
  - intros m Hm Hav. run_handler. rewrite Hval, Hmid, Hm, Hav. reflexivity.
  - intros m r Hm Hav Hin Hpending. run_handler.
    rewrite Hval, Hmid, Hm, Hav.
    destruct (Reservation_findOne_exists
                (fun x => (Reservation.user x =? User._id (Req.user req))
                          && same_id (Some mid) (Reservation.medicine x)
                          && (Reservation.status x =? "pending")%string)
                _ _ Hin (pending_filter_true _ _ _ Hpending)) as [r' Hr'].
    rewrite Hr'. reflexivity.
  - apply createReservation_failure_store.
Qed.

Lemma createReservation_precondition_order_witness :
  createReservation 200 (Sample.post Sample.U1 (Some 21)) Sample.db =
    (json_message 400 false "Medicine is not available", Sample.db).
Proof.
  exact (proj1 (proj2 (createReservation_precondition_order 200
                         (Sample.post Sample.U1 (Some 21)) Sample.db 21
                         eq_refl eq_refl))
           Sample.M2 eq_refl eq_refl).
Defined.

(** C3: on validated input, for an existing available medicine for which the
    requester has no pending reservation, [createReservation] answers 201
    with a new document that is appended to the collection; its status is
    ["pending"], its user the requesting principal, its medicine the given
    id, its pharmacy the one the medicine has at that moment, and its [_id]
    was not in use.  Nothing else in the store changes.  The principal's
    role plays no part: the statement holds for consumers in particular. *)
Theorem createReservation_success (now : Timestamp)
    (req : Req.t unit CreateReservationBody) (db : Store)
    (mid : ObjectId) (m : Medicine.t) :
  validationResult req = [] ->
  medicine (Req.body req) = Some mid ->
  Medicine.findById mid (medicines db) = Some m ->
  Medicine.availability m = true ->
  (forall r, In r (reservations db) ->
             ~ pending_for (User._id (Req.user req)) mid r) ->
  exists r,
    createReservation now req db =
      (json_data 201 (ReservationDoc r),
       mkStore (pharmacies db) (medicines db) (reservations db ++ [r])%list)
    /\ Reservation.status r = "pending"
    /\ Reservation.user r = User._id (Req.user req)
    /\ Reservation.medicine r = mid
    /\ Reservation.pharmacy r = Medicine.pharmacy m
    /\ ~ In (Reservation._id r) (map Reservation._id (reservations db)).
Proof.
  intros Hval Hmid Hm Hav Hnone.
  eexists. split.
  - run_handler. rewrite Hval, Hmid, Hm, Hav.
    rewrite (Reservation_findOne_none
               (fun x => (Reservation.user x =? User._id (Req.user req))
                         && same_id (Some mid) (Reservation.medicine x)
                         && (Reservation.status x =? "pending")%string))
      by (intros r Hin; apply pending_filter_false; auto).
    reflexivity.
  - cbn. repeat split. apply newObjectId_fresh.
Qed.

Lemma createReservation_success_witness :
  exists r,
    createReservation 200 (Sample.post Sample.U2 (Some 20)) Sample.db =
      (json_data 201 (ReservationDoc r),
       mkStore [Sample.P1] [Sample.M1; Sample.M2] [Sample.R1; Sample.R2; r])
    /\ Reservation.status r = "pending"
    /\ Reservation.user r = 4
    /\ Reservation.medicine r = 20
    /\ Reservation.pharmacy r = 10
    /\ ~ In (Reservation._id r) [30; 31].
Proof.
  apply (createReservation_success 200 (Sample.post Sample.U2 (Some 20))
           Sample.db 20 Sample.M1 eq_refl eq_refl eq_refl eq_refl).
  intros r [<-|[<-|[]]] (Hu & _); discriminate Hu.
Defined.

(** ** Status transitions *)

(** C4: the current status is never consulted.  A principal with role
    ["pharmacy"] whose pharmacy (the one [Pharmacy.findOne({ user })]
    returns) is the reservation's pharmacy moves a ["cancelled"] reservation
    to ["confirmed"]: the answer is 200 with the updated document, and the
    stored reservation now has status ["confirmed"]. *)
Theorem cancelled_to_confirmed_succeeds (req : Req.t ObjectId UpdateStatusBody)
    (db : Store) (r : Reservation.t) (ph : Pharmacy.t) :
  validationResult req = [] ->
  User.role (Req.user req) = "pharmacy" ->
  Reservation.findById (Req.params req) (reservations db) = Some r ->
  Reservation.status r = "cancelled" ->
  Pharmacy.findOne (fun p => Pharmacy.user p =? User._id (Req.user req))
    (pharmacies db) = Some ph ->
  Pharmacy._id ph = Reservation.pharmacy r ->
  status (Req.body req) = "confirmed" ->
  let (res, db') := updateReservationStatus req db in
  res = json_data 200 (ReservationDoc (Reservation.set_status "confirmed" r))
  /\ Reservation.findById (Req.params req) (reservations db')
     = Some (Reservation.set_status "confirmed" r)
  /\ Reservation.status (Reservation.set_status "confirmed" r) = "confirmed".
Proof.
  intros Hval Hrole Hfind _ Hph Hown Hstatus.
  run_handler. rewrite Hval, Hfind, Hrole. eval_tests.
  rewrite Hph, Hown, Hstatus, Nat.eqb_refl. eval_tests.
  rewrite (Reservation_findById_updateById _ "confirmed" _ _ Hfind).
  repeat split.
Qed.

Lemma cancelled_to_confirmed_succeeds_witness :
  let (res, db') :=
    updateReservationStatus (Sample.put Sample.owner 31 "confirmed") Sample.db in
  res = json_data 200 (ReservationDoc (Reservation.set_status "confirmed" Sample.R2))
  /\ Reservation.findById 31 (reservations db')
     = Some (Reservation.set_status "confirmed" Sample.R2)
  /\ Reservation.status (Reservation.set_status "confirmed" Sample.R2) = "confirmed".
Proof.
  exact (cancelled_to_confirmed_succeeds
           (Sample.put Sample.owner 31 "confirmed") Sample.db Sample.R2 Sample.P1
           eq_refl eq_refl eq_refl eq_refl eq_refl eq_refl eq_refl).
Defined.



(** ** The permission check, role by role *)

Section PermissionCheck.

Variable db : Store.
Variable u : User.t.
Variable id : ObjectId.
Variable r : Reservation.t.
Hypothesis Hfind : Reservation.findById id (reservations db) = Some r.

Lemma update_consumer_not_requester (req : Req.t ObjectId UpdateStatusBody) :
  Req.user req = u -> Req.params req = id -> validationResult req = [] ->
  User.role u = "consumer" -> Reservation.user r <> User._id u ->
  updateReservationStatus req db =
    (json_message 403 false "Not authorized to update this reservation", db).
Proof.
  intros Hu Hid Hval Hrole Hne. run_handler.
  rewrite Hval, Hid, Hfind, Hu, Hrole. eval_tests.
  apply Nat.eqb_neq in Hne. rewrite Hne. reflexivity.
Qed.

Lemma delete_consumer_not_requester (B : Type) (req : Req.t ObjectId B) :
  Req.user req = u -> Req.params req = id ->
  User.role u = "consumer" -> Reservation.user r <> User._id u ->
  deleteReservation req db =
    (json_message 403 false "Not authorized to delete this reservation", db).
Proof.
  intros Hu Hid Hrole Hne. run_handler.
  rewrite Hid, Hfind, Hu, Hrole. eval_tests.
  apply Nat.eqb_neq in Hne. rewrite Hne. reflexivity.
Qed.

Lemma update_pharmacy_not_owner (req : Req.t ObjectId UpdateStatusBody) :
  Req.user req = u -> Req.params req = id -> validationResult req = [] ->
  User.role u = "pharmacy" -> not_servicing_owner db u r ->
  updateReservationStatus req db =
    (json_message 403 false "Not authorized to update this reservation", db).
Proof.
  intros Hu Hid Hval Hrole Hno. run_handler.
  rewrite Hval, Hid, Hfind, Hu, Hrole. eval_tests.
  unfold not_servicing_owner in Hno.
  destruct (Pharmacy.findOne _ (pharmacies db)) as [ph|]; [|reflexivity].
  assert (E : (Reservation.pharmacy r =? Pharmacy._id ph) = false)
    by (apply Nat.eqb_neq; congruence).
  rewrite E. reflexivity.
Qed.

Lemma delete_pharmacy_not_owner (B : Type) (req : Req.t ObjectId B) :
  Req.user req = u -> Req.params req = id ->
  User.role u = "pharmacy" -> not_servicing_owner db u r ->
  deleteReservation req db =
    (json_message 403 false "Not authorized to delete this reservation", db).
Proof.
  intros Hu Hid Hrole Hno. run_handler.
  rewrite Hid, Hfind, Hu, Hrole. eval_tests.
  unfold not_servicing_owner in Hno.
  destruct (Pharmacy.findOne _ (pharmacies db)) as [ph|]; [|reflexivity].
  assert (E : (Reservation.pharmacy r =? Pharmacy._id ph) = false)
    by (apply Nat.eqb_neq; congruence).
  rewrite E. reflexivity.
Qed.

(** Every role other than ["consumer"] and ["pharmacy"] skips the check. *)
Lemma update_other_role (req : Req.t ObjectId UpdateStatusBody) :
  Req.user req = u -> Req.params req = id -> validationResult req = [] ->
  User.role u <> "consumer" -> User.role u <> "pharmacy" ->
  In (status (Req.body req)) Reservation.status_enum ->
  updateReservationStatus req db =
    (json_data 200
       (ReservationDoc (Reservation.set_status (status (Req.body req)) r)),
     mkStore (pharmacies db) (medicines db)
       (Reservation.updateById id (status (Req.body req)) (reservations db))).
Proof.
  intros Hu Hid Hval Hc Hp Hin.
  assert (Hinc : includes Reservation.status_enum (status (Req.body req)) = true).
  { unfold includes. apply existsb_exists.
    exists (status (Req.body req)). split; [exact Hin | apply String.eqb_refl]. }
  apply String.eqb_neq in Hc, Hp.
  run_handler. rewrite Hval, Hid, Hfind, Hu, Hc, Hp, Hinc. eval_tests.
  rewrite (Reservation_findById_updateById _ (status (Req.body req)) _ _ Hfind).
  reflexivity.
Qed.

Lemma delete_other_role (B : Type) (req : Req.t ObjectId B) :
  Req.user req = u -> Req.params req = id ->
  User.role u <> "consumer" -> User.role u <> "pharmacy" ->
  deleteReservation req db =
    (json_message 200 true "Reservation deleted successfully",
     mkStore (pharmacies db) (medicines db)
       (Reservation.deleteById id (reservations db))).
Proof.
  intros Hu Hid Hc Hp. apply String.eqb_neq in Hc, Hp.
  run_handler. rewrite Hid, Hfind, Hu, Hc, Hp. reflexivity.
Qed.

End PermissionCheck.

(** C6, as the code has it: only the roles ["consumer"] and ["pharmacy"] are
    checked.  On an existing reservation a consumer who is not the requester
    and a pharmacy-role principal who is not the servicing pharmacy's owner
    are answered 403 (Forbidden) by update and delete alike; a principal
    with any other role (["admin"] or a string the check does not know) is
    let through: a validated status update and a delete both answer 200. *)
Theorem permission_check_allows_other_roles (db : Store) (u : User.t)
    (id : ObjectId) (r : Reservation.t) :
  Reservation.findById id (reservations db) = Some r ->
  (User.role u = "consumer" /\ Reservation.user r <> User._id u
   \/ User.role u = "pharmacy" /\ not_servicing_owner db u r ->
   (forall req : Req.t ObjectId UpdateStatusBody,
      Req.user req = u -> Req.params req = id -> validationResult req = [] ->
      Forbidden (fst (updateReservationStatus req db))
      /\ snd (updateReservationStatus req db) = db)
   /\ (forall req : Req.t ObjectId unit,
         Req.user req = u -> Req.params req = id ->
         Forbidden (fst (deleteReservation req db))
         /\ snd (deleteReservation req db) = db))
  /\ (User.role u <> "consumer" -> User.role u <> "pharmacy" ->
      (forall req : Req.t ObjectId UpdateStatusBody,
         Req.user req = u -> Req.params req = id -> validationResult req = [] ->
         In (status (Req.body req)) Reservation.status_enum ->
         Succeeds (fst (updateReservationStatus req db))
         /\ ~ Forbidden (fst (updateReservationStatus req db)))
      /\ (forall req : Req.t ObjectId unit,
            Req.user req = u -> Req.params req = id ->
            Succeeds (fst (deleteReservation req db))
            /\ ~ Forbidden (fst (deleteReservation req db)))).
Proof.
  intros Hfind. split.
  - intros [[Hrole Hne]|[Hrole Hno]]; split; intros req Hu Hid; try intros Hval.
    + rewrite (update_consumer_not_requester db u id r Hfind req); auto.
      split; reflexivity.
    + rewrite (delete_consumer_not_requester db u id r Hfind unit req); auto.
      split; reflexivity.
    + rewrite (update_pharmacy_not_owner db u id r Hfind req); auto.
      split; reflexivity.
    + rewrite (delete_pharmacy_not_owner db u id r Hfind unit req); auto.
      split; reflexivity.
  - intros Hc Hp. split.
    + intros req Hu Hid Hval Hin.
      rewrite (update_other_role db u id r Hfind req); auto.
      unfold Succeeds, Forbidden. cbn. repeat split; auto. discriminate.
    + intros req Hu Hid.
      rewrite (delete_other_role db u id r Hfind unit req); auto.
      unfold Succeeds, Forbidden. cbn. repeat split; auto. discriminate.
Qed.

Lemma permission_check_allows_other_roles_witness :
  Succeeds (fst (deleteReservation (Sample.del Sample.guest 30) Sample.db))
  /\ Forbidden (fst (deleteReservation (Sample.del Sample.U2 30) Sample.db)).
Proof.
  destruct (permission_check_allows_other_roles Sample.db Sample.guest 30
              Sample.R1 eq_refl) as [_ Hallow].
  destruct (permission_check_allows_other_roles Sample.db Sample.U2 30
              Sample.R1 eq_refl) as [Hdeny _].
  split.
  - refine (proj1 (proj2 (Hallow _ _) (Sample.del Sample.guest 30) eq_refl eq_refl));
      discriminate.
  - refine (proj1 (proj2 (Hdeny (or_introl (conj eq_refl _)))
                     (Sample.del Sample.U2 30) eq_refl eq_refl)).
    discriminate.
Defined.

(** C6 as stated fails: a principal whose role is none of consumer,
    pharmacy, admin deletes another user's reservation and updates its
    status, and both calls answer 200 instead of 403. *)
Lemma unknown_role_not_denied :
  User.role Sample.guest <> "consumer"
  /\ User.role Sample.guest <> "pharmacy"
  /\ User.role Sample.guest <> "admin"
  /\ Reservation.findById 30 (reservations Sample.db) = Some Sample.R1
  /\ Reservation.user Sample.R1 <> User._id Sample.guest
  /\ ~ Forbidden (fst (deleteReservation (Sample.del Sample.guest 30) Sample.db))
  /\ Response.status
       (fst (deleteReservation (Sample.del Sample.guest 30) Sample.db)) = 200
  /\ ~ Forbidden (fst (updateReservationStatus
                         (Sample.put Sample.guest 30 "confirmed") Sample.db))
  /\ Response.status
       (fst (updateReservationStatus
               (Sample.put Sample.guest 30 "confirmed") Sample.db)) = 200.
Proof.
  unfold Forbidden. cbn. repeat split; discriminate.
Qed.

(** ** Missing reservations *)

(** On an id that is an ObjectId, the handlers on the URL id are the
    handlers on that ObjectId. *)
Lemma updateReservationStatus_url_ObjectId (req : Req.t IdParam UpdateStatusBody)
    (id : ObjectId) (db : Store) :
  Req.params req = IsObjectId id ->
  updateReservationStatus_url req db = updateReservationStatus (with_id id req) db.
Proof.
  intros Hid. unfold updateReservationStatus_url, updateReservationStatus, with_id.
  rewrite Hid. reflexivity.
Qed.

Lemma deleteReservation_url_ObjectId (B : Type) (req : Req.t IdParam B)
    (id : ObjectId) (db : Store) :
  Req.params req = IsObjectId id ->
  deleteReservation_url req db = deleteReservation (with_id id req) db.
Proof.
  intros Hid. unfold deleteReservation_url, deleteReservation, with_id.
  rewrite Hid. reflexivity.
Qed.

(** C8, as the code has it: when the id of the URL refers to no stored
    reservation, a validated status update and a delete leave the store as
    it was and never answer 403, whoever the principal is, because the
    permission check is not reached.  The answer is 404 "Reservation not
    found" exactly when the id is an ObjectId; an id that is not one makes
    the lookup throw, and the answer is 500 "Server error". *)
Theorem missing_reservation_not_found (db : Store) (p : IdParam) :
  (forall r, In r (reservations db) -> p <> IsObjectId (Reservation._id r)) ->
  (forall req : Req.t IdParam UpdateStatusBody,
     Req.params req = p -> validationResult req = [] ->
     updateReservationStatus_url req db = (missing_answer p, db)
     /\ ~ Forbidden (fst (updateReservationStatus_url req db)))
  /\ (forall (B : Type) (req : Req.t IdParam B),
        Req.params req = p ->
        deleteReservation_url req db = (missing_answer p, db)
        /\ ~ Forbidden (fst (deleteReservation_url req db)))
  /\ (NotFound (missing_answer p) <-> exists id, p = IsObjectId id).
Proof.
  intros Hmissing.
  assert (Habsent : forall id, p = IsObjectId id ->
                    Reservation.findById id (reservations db) = None).
  { intros id ->. apply Reservation_findById_absent.
    intros Hin. apply in_map_iff in Hin. destruct Hin as (r & Hr & Hin).
    apply (Hmissing r Hin). now rewrite Hr. }
  split; [|split].
  - intros req Hid Hval.
    assert (E : updateReservationStatus_url req db = (missing_answer p, db)).
    { destruct p as [id|raw].
      - rewrite (updateReservationStatus_url_ObjectId req id db Hid).
        unfold with_id. run_handler. cbn [Req.validation Req.params].
        rewrite Hval, (Habsent id eq_refl). reflexivity.
      - unfold updateReservationStatus_url, castObjectId. run_handler.
        rewrite Hval, Hid. reflexivity. }
    rewrite E. split; [reflexivity|].
    unfold Forbidden. destruct p; cbn; discriminate.
  - intros B req Hid.
    assert (E : deleteReservation_url req db = (missing_answer p, db)).
    { destruct p as [id|raw].
      - rewrite (deleteReservation_url_ObjectId B req id db Hid).
        unfold with_id. run_handler. cbn [Req.params].
        rewrite (Habsent id eq_refl). reflexivity.
      - unfold deleteReservation_url, castObjectId. run_handler.
        rewrite Hid. reflexivity. }
    rewrite E. split; [reflexivity|].
    unfold Forbidden. destruct p; cbn; discriminate.
  - unfold NotFound. destruct p as [id|raw]; cbn; split.
    + intros _. now exists id.
    + reflexivity.
    + discriminate.
    + intros [id H]. discriminate H.
Qed.

Lemma missing_reservation_not_found_witness :
  updateReservationStatus_url
    (runValidation updateStatusValidation
       (incoming Sample.U2 (IsObjectId 99) {| status := "cancelled" |}))
    Sample.db
  = (json_message 404 false "Reservation not found", Sample.db)
  /\ deleteReservation_url (incoming Sample.newcomer (IsObjectId 99) tt) Sample.db
     = (json_message 404 false "Reservation not found", Sample.db).
Proof.
  assert (Hmissing : forall r, In r (reservations Sample.db) ->
                               IsObjectId 99 <> IsObjectId (Reservation._id r)).
  { intros r [<-|[<-|[]]]; cbn; discriminate. }
  destruct (missing_reservation_not_found Sample.db (IsObjectId 99) Hmissing)
    as (Hput & Hdel & _).
  split.
  - exact (proj1 (Hput (runValidation updateStatusValidation
                          (incoming Sample.U2 (IsObjectId 99)
                             {| status := "cancelled" |}))
                    eq_refl eq_refl)).
  - exact (proj1 (Hdel unit (incoming Sample.newcomer (IsObjectId 99) tt) eq_refl)).
Defined.

(** C8 as stated fails: the id ["abc"] refers to no stored reservation, and
    a delete (and a validated status update) of it is answered 500, not
    404. *)
Lemma malformed_id_not_reported_not_found :
  (forall r, In r (reservations Sample.db) ->
             NotObjectId "abc" <> IsObjectId (Reservation._id r))
  /\ ~ NotFound
       (fst (deleteReservation_url (incoming Sample.U1 (NotObjectId "abc") tt)
               Sample.db))
  /\ Response.status
       (fst (deleteReservation_url (incoming Sample.U1 (NotObjectId "abc") tt)
               Sample.db)) = 500
  /\ ~ NotFound
       (fst (updateReservationStatus_url
               (runValidation updateStatusValidation
                  (incoming Sample.U1 (NotObjectId "abc") {| status := "cancelled" |}))
               Sample.db))
  /\ Response.status
       (fst (updateReservationStatus_url
               (runValidation updateStatusValidation
                  (incoming Sample.U1 (NotObjectId "abc") {| status := "cancelled" |}))
               Sample.db)) = 500.
Proof.
  unfold NotFound. cbn. repeat split; discriminate.
Qed.

(** ** Frame of a status update *)

(** The store a status update leaves behind is the old one, or the old one
    with [updateOne({ _id }, { status })] applied to the reservations. *)
Lemma updateReservationStatus_store (req : Req.t ObjectId UpdateStatusBody)
    (db : Store) :
  snd (updateReservationStatus req db) = db
  \/ snd (updateReservationStatus req db) =
       mkStore (pharmacies db) (medicines db)
         (Reservation.updateById (Req.params req) (status (Req.body req))
            (reservations db)).
Proof.
  run_handler.
  destruct (Req.validation req); [|left; reflexivity].
  destruct (Reservation.findById (Req.params req) (reservations db)) as [r|];
    [|left; reflexivity].
  destruct (includes Reservation.status_enum (status (Req.body req)));
    destruct (User.role (Req.user req) =? "consumer")%string;
    [ destruct (Reservation.user r =? User._id (Req.user req));
      destruct (status (Req.body req) =? "cancelled")%string
    | destruct (User.role (Req.user req) =? "pharmacy")%string;
      [ destruct (Pharmacy.findOne _ (pharmacies db)) as [ph|];
        [ destruct (Reservation.pharmacy r =? Pharmacy._id ph) |];
        destruct (includes ["confirmed"; "cancelled"] (status (Req.body req)))
      |]
    | destruct (Reservation.user r =? User._id (Req.user req));
      destruct (status (Req.body req) =? "cancelled")%string
    | destruct (User.role (Req.user req) =? "pharmacy")%string;
      [ destruct (Pharmacy.findOne _ (pharmacies db)) as [ph|];
        [ destruct (Reservation.pharmacy r =? Pharmacy._id ph) |];
        destruct (includes ["confirmed"; "cancelled"] (status (Req.body req)))
      |] ];
    cbn; auto.
Qed.

(** C9: whatever the outcome, [updateReservationStatus] leaves the
    pharmacies and the medicines (hence every [availability] flag) exactly
    as they were, and the reservations collection keeps its documents in
    place: each one keeps its [_id], [user], [medicine], [pharmacy] and
    dates, and its [status] is either untouched or, for a document with the
    requested id, the requested status. *)
Theorem updateReservationStatus_changes_status_only
    (req : Req.t ObjectId UpdateStatusBody) (db : Store) :
  let db' := snd (updateReservationStatus req db) in
  pharmacies db' = pharmacies db
  /\ medicines db' = medicines db
  /\ Forall2 (status_only (Req.params req) (status (Req.body req)))
       (reservations db) (reservations db').
Proof.
  intros db'. subst db'.
  destruct (updateReservationStatus_store req db) as [-> | ->]; cbn.
  - repeat split. apply Forall2_status_only_refl.
  - repeat split. apply updateById_status_only.
Qed.

(** ** A pharmacy-role principal without a pharmacy *)

(** C10: a principal with role ["pharmacy"] for whom the store holds no
    pharmacy is answered 403, not 404, by a validated status update and by a
    delete of any existing reservation, and the store is left as it was. *)
Theorem pharmacy_role_without_pharmacy_forbidden (db : Store) (u : User.t)
    (id : ObjectId) (r : Reservation.t) :
  User.role u = "pharmacy" ->
  (forall p, In p (pharmacies db) -> Pharmacy.user p <> User._id u) ->
  Reservation.findById id (reservations db) = Some r ->
  (forall req : Req.t ObjectId UpdateStatusBody,
     Req.user req = u -> Req.params req = id -> validationResult req = [] ->
     updateReservationStatus req db =
       (json_message 403 false "Not authorized to update this reservation", db)
     /\ Forbidden (fst (updateReservationStatus req db))
     /\ ~ NotFound (fst (updateReservationStatus req db)))
  /\ (forall (B : Type) (req : Req.t ObjectId B),
        Req.user req = u -> Req.params req = id ->
        deleteReservation req db =
          (json_message 403 false "Not authorized to delete this reservation", db)
        /\ Forbidden (fst (deleteReservation req db))
        /\ ~ NotFound (fst (deleteReservation req db))).
Proof.
  intros Hrole Hnone Hfind.
  assert (Hno : not_servicing_owner db u r).
  { unfold not_servicing_owner.
    rewrite (Pharmacy_findOne_none (User._id u) (pharmacies db) Hnone). exact I. }
  split.
  - intros req Hu Hid Hval.
    rewrite (update_pharmacy_not_owner db u id r Hfind req Hu Hid Hval Hrole Hno).
    unfold Forbidden, NotFound. cbn. repeat split. discriminate.
  - intros B req Hu Hid.
    rewrite (delete_pharmacy_not_owner db u id r Hfind B req Hu Hid Hrole Hno).
    unfold Forbidden, NotFound. cbn. repeat split. discriminate.
Qed.

Lemma pharmacy_role_without_pharmacy_forbidden_witness :
  updateReservationStatus (Sample.put Sample.newcomer 30 "confirmed") Sample.db =
    (json_message 403 false "Not authorized to update this reservation", Sample.db)
  /\ deleteReservation (Sample.del Sample.newcomer 30) Sample.db =
       (json_message 403 false "Not authorized to delete this reservation", Sample.db).
Proof.
  assert (Hnone : forall p, In p (pharmacies Sample.db) ->
                            Pharmacy.user p <> User._id Sample.newcomer).
  { intros p [<-|[]]. cbn. discriminate. }
  destruct (pharmacy_role_without_pharmacy_forbidden Sample.db Sample.newcomer 30
              Sample.R1 eq_refl Hnone eq_refl) as [Hput Hdel].
  split.
  - exact (proj1 (Hput (Sample.put Sample.newcomer 30 "confirmed")
                    eq_refl eq_refl eq_refl)).
  - exact (proj1 (Hdel unit (Sample.del Sample.newcomer 30) eq_refl eq_refl)).
Defined.

(** ** One pharmacy per user *)

(** C7: when the store already holds a pharmacy of the requesting user,
    [createPharmacy] answers 400 and stores nothing; on validated input the
    message is "User already has a pharmacy". *)
Theorem createPharmacy_second_attempt_rejected (now : Timestamp)
    (req : Req.t unit Pharmacy.fields) (db : Store) (ph : Pharmacy.t) :
  In ph (pharmacies db) ->
  Pharmacy.user ph = User._id (Req.user req) ->
  snd (createPharmacy now req db) = db
  /\ BadRequest (fst (createPharmacy now req db))
  /\ (validationResult req = [] ->
      fst (createPharmacy now req db) =
        json_message 400 false "User already has a pharmacy").
Proof.
  intros Hin Hu.
  destruct (Pharmacy_findOne_owner _ _ _ Hin Hu) as [p' Hp'].
  assert (E : createPharmacy now req db =
              (match validationResult req with
               | [] => json_message 400 false "User already has a pharmacy"
               | errors => json_errors 400 "Validation failed" errors
               end, db)).
  { run_handler. destruct (Req.validation req); eval_tests;
      [rewrite Hp'|]; reflexivity. }
  rewrite E. unfold BadRequest. cbn [fst snd].
  destruct (validationResult req); repeat split; intros H; discriminate H.
Qed.

Lemma createPharmacy_second_attempt_rejected_witness :
  createPharmacy 200
    (Sample.post_pharmacy Sample.owner
       (Pharmacy.mkFields "Second Chemist" "Mombasa" "PPB-002" "0711111111" None))
    Sample.db
  = (json_message 400 false "User already has a pharmacy", Sample.db).
Proof.
  pose proof (createPharmacy_second_attempt_rejected 200
                (Sample.post_pharmacy Sample.owner
                   (Pharmacy.mkFields "Second Chemist" "Mombasa" "PPB-002"
                      "0711111111" None))
                Sample.db Sample.P1 (or_introl eq_refl) eq_refl) as (Hdb & _ & Hmsg).
  specialize (Hmsg eq_refl).
  destruct (createPharmacy _ _ _) as [res db']. cbn in Hdb, Hmsg.
  now rewrite Hdb, Hmsg.
Defined.

(** ** Who may change a status *)

(** As [eval_tests], with [includes] kept folded. *)
Ltac eval_tests_keep :=
  cbn -[Reservation.findById Reservation.findOne Reservation.updateById
        Reservation.deleteById Pharmacy.findOne Pharmacy.findById
        Medicine.findById includes remove_first].

Lemma includes_In (l : list string) (x : string) :
  includes l x = true <-> In x l.
Proof.
  unfold includes. rewrite existsb_exists. split.
  - intros [y [Hin E]]. apply String.eqb_eq in E. now subst.
  - intros Hin. exists x. split; [assumption | apply String.eqb_refl].
Qed.

(** A successful update answers 200 with [success: true]; every refusal of
    the handlers has [success: false]. *)
Lemma Succeeds_json_data code d :
  Succeeds (json_data code d) <-> code = 200 \/ code = 201.
Proof. unfold Succeeds. cbn. intuition. Qed.

Lemma not_Succeeds_failure code msg : ~ Succeeds (json_message code false msg).
Proof. unfold Succeeds. cbn. intros [H _]. discriminate H. Qed.

Ltac failure_case :=
  match goal with
  | H : Succeeds (json_message _ false _) |- _ =>
      exfalso; exact (not_Succeeds_failure _ _ H)
  end.

Ltac success_goal :=
  match goal with
  | |- Succeeds _ => unfold Succeeds; cbn; auto
  end.

(** X1: for a consumer and an existing reservation, a validated status
    update succeeds exactly when the consumer is the requester and the new
    status is ["cancelled"]; the stored reservation is then the old one with
    its status set, and that status is ["cancelled"], whatever it was. *)
Theorem consumer_update_succeeds_iff (req : Req.t ObjectId UpdateStatusBody)
    (db : Store) (r : Reservation.t) :
  validationResult req = [] ->
  User.role (Req.user req) = "consumer" ->
  Reservation.findById (Req.params req) (reservations db) = Some r ->
  (Succeeds (fst (updateReservationStatus req db))
   <-> Reservation.user r = User._id (Req.user req)
       /\ status (Req.body req) = "cancelled")
  /\ (Succeeds (fst (updateReservationStatus req db)) ->
      Reservation.findById (Req.params req)
        (reservations (snd (updateReservationStatus req db)))
      = Some (Reservation.set_status "cancelled" r)
      /\ Reservation.status (Reservation.set_status "cancelled" r) = "cancelled").
Proof.
  intros Hval Hrole Hfind.
  assert (E : updateReservationStatus req db =
    if negb (Reservation.user r =? User._id (Req.user req))
    then (json_message 403 false "Not authorized to update this reservation", db)
    else if negb (status (Req.body req) =? "cancelled")%string
    then (json_message 400 false "Consumers can only cancel reservations", db)
    else (json_data 200 (ReservationDoc (Reservation.set_status "cancelled" r)),
          mkStore (pharmacies db) (medicines db)
            (Reservation.updateById (Req.params req) "cancelled" (reservations db)))).
  { run_handler. rewrite Hval, Hfind, Hrole. eval_tests.
    destruct (Reservation.user r =? User._id (Req.user req)); [|reflexivity].
    destruct (String.eqb_spec (status (Req.body req)) "cancelled") as [->|];
      [|reflexivity].
    eval_tests.
    rewrite (Reservation_findById_updateById _ "cancelled" _ _ Hfind). reflexivity. }
  rewrite E. clear E.
  destruct (Nat.eqb_spec (Reservation.user r) (User._id (Req.user req))) as [Hu|Hu];
    cbn [negb].
  - destruct (String.eqb_spec (status (Req.body req)) "cancelled") as [Hs|Hs];
      cbn [negb fst snd reservations].
    + split.
      * split; [auto | intros _; success_goal].
      * intros _. split; [|reflexivity].
        apply Reservation_findById_updateById. exact Hfind.
    + split.
      * split; [intros H; failure_case | intros [_ H]; contradiction].
      * intros H. failure_case.
  - cbn [fst snd]. split.
    + split; [intros H; failure_case | intros [H _]; contradiction].
    + intros H. failure_case.
Qed.

Lemma consumer_update_succeeds_iff_witness :
  Succeeds (fst (updateReservationStatus (Sample.put Sample.U1 30 "cancelled") Sample.db))
  /\ Reservation.findById 30
       (reservations
          (snd (updateReservationStatus (Sample.put Sample.U1 30 "cancelled") Sample.db)))
     = Some (Reservation.set_status "cancelled" Sample.R1)
  /\ Reservation.status (Reservation.set_status "cancelled" Sample.R1) = "cancelled".
Proof.
  destruct (consumer_update_succeeds_iff (Sample.put Sample.U1 30 "cancelled")
              Sample.db Sample.R1 eq_refl eq_refl eq_refl) as [Hiff Hstored].
  assert (Hs : Succeeds
                 (fst (updateReservationStatus
                         (Sample.put Sample.U1 30 "cancelled") Sample.db)))
    by (apply Hiff; split; reflexivity).
  split; [exact Hs | exact (Hstored Hs)].
Defined.

(** X2: for a principal with role ["pharmacy"] and an existing reservation, a
    validated status update succeeds exactly when the principal's pharmacy
    is the reservation's pharmacy and the new status is ["confirmed"] or
    ["cancelled"]; the owner asking for another status (["pending"]) is
    answered 400 "Invalid status for pharmacy update" and nothing changes. *)
Theorem pharmacy_update_succeeds_iff (req : Req.t ObjectId UpdateStatusBody)
    (db : Store) (r : Reservation.t) :
  validationResult req = [] ->
  User.role (Req.user req) = "pharmacy" ->
  Reservation.findById (Req.params req) (reservations db) = Some r ->
  (Succeeds (fst (updateReservationStatus req db))
   <-> is_servicing_owner db (Req.user req) r = true
       /\ In (status (Req.body req)) ["confirmed"; "cancelled"])
  /\ (Succeeds (fst (updateReservationStatus req db)) ->
      Reservation.findById (Req.params req)
        (reservations (snd (updateReservationStatus req db)))
      = Some (Reservation.set_status (status (Req.body req)) r))
  /\ (is_servicing_owner db (Req.user req) r = true ->
      ~ In (status (Req.body req)) ["confirmed"; "cancelled"] ->
      updateReservationStatus req db =
        (json_message 400 false "Invalid status for pharmacy update", db)).
Proof.
  intros Hval Hrole Hfind.
  assert (E : updateReservationStatus req db =
    if negb (is_servicing_owner db (Req.user req) r)
    then (json_message 403 false "Not authorized to update this reservation", db)
    else if negb (includes ["confirmed"; "cancelled"] (status (Req.body req)))
    then (json_message 400 false "Invalid status for pharmacy update", db)
    else (json_data 200
            (ReservationDoc (Reservation.set_status (status (Req.body req)) r)),
          mkStore (pharmacies db) (medicines db)
            (Reservation.updateById (Req.params req) (status (Req.body req))
               (reservations db)))).
  { run_handler. unfold is_servicing_owner.
    rewrite Hval, Hfind, Hrole. eval_tests_keep.
    destruct (Pharmacy.findOne _ (pharmacies db)) as [ph|]; [|reflexivity].
    destruct (Reservation.pharmacy r =? Pharmacy._id ph); [|reflexivity].
    cbn [negb orb].
    destruct (includes ["confirmed"; "cancelled"] (status (Req.body req))) eqn:Hinc;
      [|reflexivity].
    assert (Henum : includes Reservation.status_enum (status (Req.body req)) = true).
    { apply includes_In. apply includes_In in Hinc.
      unfold Reservation.status_enum. cbn in *. intuition. }
    eval_tests_keep. rewrite Henum. eval_tests_keep.
    rewrite (Reservation_findById_updateById _ (status (Req.body req)) _ _ Hfind).
    reflexivity. }
  rewrite E. clear E.
  destruct (is_servicing_owner db (Req.user req) r); cbn [negb].
  - destruct (includes ["confirmed"; "cancelled"] (status (Req.body req))) eqn:Hinc;
      cbn [negb fst snd reservations].
    + apply includes_In in Hinc. split; [split|split].
      * auto.
      * intros _. success_goal.
      * intros _. apply Reservation_findById_updateById. exact Hfind.
      * intros _ Hnot. contradiction.
    + assert (Hnot : ~ In (status (Req.body req)) ["confirmed"; "cancelled"]).
      { intros Hin. apply includes_In in Hin. congruence. }
      split; [split|split].
      * intros H. failure_case.
      * intros [_ H]. contradiction.
      * intros H. failure_case.
      * reflexivity.
  - cbn [fst snd]. split; [split|split].
    + intros H. failure_case.
    + intros [H _]. discriminate H.
    + intros H. failure_case.
    + intros H. discriminate H.
Qed.

Lemma pharmacy_update_succeeds_iff_witness :
  updateReservationStatus (Sample.put Sample.owner 30 "pending") Sample.db =
    (json_message 400 false "Invalid status for pharmacy update", Sample.db).
Proof.
  refine (proj2 (proj2 (pharmacy_update_succeeds_iff
                          (Sample.put Sample.owner 30 "pending")
                          Sample.db Sample.R1 eq_refl eq_refl eq_refl))
            eq_refl _).
  intros [H|[H|[]]]; discriminate H.
Defined.

(** ** Validation in front of the status update *)

(** Case analysis on every test a handler makes. *)
Ltac split_tests :=
  repeat (match goal with
          | |- context [match ?x with _ => _ end] =>
              lazymatch x with
              | context [match _ with _ => _ end] => fail
              | _ => destruct x eqn:?
              end
          end; eval_tests_keep).

(** X3: a status outside pending / confirmed / cancelled is stopped by the
    route's validation: the answer is 400 "Validation failed" for every
    principal, admin included, whether or not the reservation exists, and
    the store is not touched. *)
Theorem PUT_reservation_invalid_status (u : User.t) (id : ObjectId)
    (b : UpdateStatusBody) (db : Store) :
  ~ In (status b) ["pending"; "confirmed"; "cancelled"] ->
  PUT_reservation u id b db =
    (json_errors 400 "Validation failed"
       ["Status must be pending, confirmed, or cancelled"], db).
Proof.
  intros Hnot. unfold PUT_reservation, runValidation, incoming, updateStatusValidation.
  cbn [Req.body Req.user Req.params Req.validation app].
  destruct (includes ["pending"; "confirmed"; "cancelled"] (status b)) eqn:Hinc.
  - apply includes_In in Hinc. contradiction.
  - reflexivity.
Qed.

Lemma PUT_reservation_invalid_status_witness :
  PUT_reservation Sample.admin 99 {| status := "shipped" |} Sample.db =
    (json_errors 400 "Validation failed"
       ["Status must be pending, confirmed, or cancelled"], Sample.db).
Proof.
  apply PUT_reservation_invalid_status.
  intros [H|[H|[H|[]]]]; discriminate H.
Defined.

(** X4: for a body whose [status] is a string, PUT /api/reservations/:id
    answers 200, 400, 403, 404 or 500, and it answers 500 exactly when the
    status is on the route's whitelist and the id of the URL is not an
    ObjectId.  The whitelist is the schema's enum, so the update validators
    of [findByIdAndUpdate] never reject a status the route let through.
    Whenever the answer is not 200 the store is the one it was given. *)
Theorem PUT_reservation_status_codes (u : User.t) (p : IdParam)
    (b : UpdateStatusBody) (db : Store) :
  In (Response.status (fst (PUT_reservation_url u p b db))) [200; 400; 403; 404; 500]
  /\ (Response.status (fst (PUT_reservation_url u p b db)) = 500
      <-> In (status b) ["pending"; "confirmed"; "cancelled"]
          /\ exists raw, p = NotObjectId raw)
  /\ (Response.status (fst (PUT_reservation_url u p b db)) <> 200 ->
      snd (PUT_reservation_url u p b db) = db).
Proof.
  unfold PUT_reservation_url.
  destruct p as [id|raw].
  - rewrite (updateReservationStatus_url_ObjectId _ id db)
      by (unfold runValidation, incoming, updateStatusValidation; reflexivity).
    unfold with_id, runValidation, incoming, updateStatusValidation.
    cbn [Req.body Req.user Req.params Req.validation app].
    destruct (includes ["pending"; "confirmed"; "cancelled"] (status b)) eqn:Hinc.
    + run_handler. cbn [Req.validation Req.params Req.body Req.user].
      change Reservation.status_enum with ["pending"; "confirmed"; "cancelled"].
      rewrite Hinc. split_tests; cbn;
        (split; [intuition congruence | split; [|intuition congruence]]);
        (split; [intros H; discriminate H | intros [_ [raw H]]; discriminate H]).
    + cbn. split; [intuition congruence | split; [|intuition congruence]].
      split; [intros H; discriminate H | intros [_ [raw H]]; discriminate H].
  - unfold updateReservationStatus_url, castObjectId, runValidation, incoming,
      updateStatusValidation.
    cbn [Req.body Req.user Req.params Req.validation app].
    destruct (includes ["pending"; "confirmed"; "cancelled"] (status b)) eqn:Hinc.
    + apply includes_In in Hinc. run_handler. cbn.
      split; [intuition congruence | split; [|intuition congruence]].
      split; [intros _; split; [exact Hinc | now exists raw] | reflexivity].
    + assert (Hnot : ~ In (status b) ["pending"; "confirmed"; "cancelled"]).
      { intros Hin. apply includes_In in Hin. congruence. }
      run_handler. cbn.
      split; [intuition congruence | split; [|intuition congruence]].
      split; [intros H; discriminate H | intros [H _]; contradiction].
Qed.

(** ** Deleting a reservation *)

Lemma deleteById_split id coll r :
  Reservation.findById id coll = Some r ->
  exists l1 l2,
    coll = (l1 ++ r :: l2)%list
    /\ Reservation.deleteById id coll = (l1 ++ l2)%list
    /\ Reservation._id r = id
    /\ (forall x, In x l1 -> Reservation._id x <> id).
Proof.
  unfold Reservation.findById.
  induction coll as [|x coll IH]; intros H; [discriminate|].
  cbn [find Reservation.deleteById] in *.
  destruct (Nat.eqb_spec (Reservation._id x) id) as [E|E].
  - injection H as ->. exists [], coll. cbn. intuition.
  - destruct (IH H) as (l1 & l2 & -> & Hdel & Hid & Hl1).
    exists (x :: l1), l2. cbn. rewrite Hdel. repeat split; auto.
    intros y [<-|Hy]; auto.
Qed.

Lemma deleteById_absent id coll :
  Reservation.findById id coll = None ->
  Reservation.deleteById id coll = coll.
Proof.
  unfold Reservation.findById.
  induction coll as [|x coll IH]; intros H; [reflexivity|].
  cbn [find Reservation.deleteById] in *.
  destruct (Reservation._id x =? id); [discriminate|].
  f_equal. now apply IH.
Qed.

(** The answer and the store of [deleteReservation] on an existing
    reservation, by the two tests of the permission check. *)
Lemma deleteReservation_found (B : Type) (req : Req.t ObjectId B) (db : Store)
    (r : Reservation.t) :
  Reservation.findById (Req.params req) (reservations db) = Some r ->
  deleteReservation req db =
    if (User.role (Req.user req) =? "consumer")%string
       && negb (Reservation.user r =? User._id (Req.user req))
       || negb (User.role (Req.user req) =? "consumer")%string
          && (User.role (Req.user req) =? "pharmacy")%string
          && negb (is_servicing_owner db (Req.user req) r)
    then (json_message 403 false "Not authorized to delete this reservation", db)
    else (json_message 200 true "Reservation deleted successfully",
          mkStore (pharmacies db) (medicines db)
            (Reservation.deleteById (Req.params req) (reservations db))).
Proof.
  intros Hfind. run_handler. unfold is_servicing_owner. rewrite Hfind.
  destruct (User.role (Req.user req) =? "consumer")%string.
  - destruct (Reservation.user r =? User._id (Req.user req)); reflexivity.
  - destruct (User.role (Req.user req) =? "pharmacy")%string; [|reflexivity].
    eval_tests_keep.
    destruct (Pharmacy.findOne _ (pharmacies db)) as [ph|]; [|reflexivity].
    destruct (Reservation.pharmacy r =? Pharmacy._id ph); reflexivity.
Qed.

(** X5: on an existing reservation [deleteReservation] succeeds exactly when
    a consumer is the requester and a pharmacy-role principal is the
    servicing pharmacy's owner; any other role always succeeds.  The current
    status of the reservation plays no part. *)
Theorem deleteReservation_succeeds_iff (B : Type) (req : Req.t ObjectId B)
    (db : Store) (r : Reservation.t) :
  Reservation.findById (Req.params req) (reservations db) = Some r ->
  (Succeeds (fst (deleteReservation req db))
   <-> (User.role (Req.user req) = "consumer" ->
        Reservation.user r = User._id (Req.user req))
       /\ (User.role (Req.user req) = "pharmacy" ->
           is_servicing_owner db (Req.user req) r = true)).
Proof.
  intros Hfind. rewrite (deleteReservation_found B req db r Hfind).
  destruct (String.eqb_spec (User.role (Req.user req)) "consumer") as [Hc|Hc];
    cbn [andb orb negb].
  - destruct (Nat.eqb_spec (Reservation.user r) (User._id (Req.user req))) as [Hu|Hu];
      cbn [andb orb negb fst].
    + split; [|intros _; success_goal].
      intros _. split; [auto|]. intros Hp. rewrite Hc in Hp. discriminate Hp.
    + split; [intros H; failure_case|]. intros [H _]. exfalso. auto.
  - destruct (String.eqb_spec (User.role (Req.user req)) "pharmacy") as [Hp|Hp];
      cbn [andb orb negb].
    + destruct (is_servicing_owner db (Req.user req) r); cbn [andb orb negb fst].
      * split; [|intros _; success_goal]. intros _. split; [contradiction|auto].
      * split; [intros H; failure_case|]. intros [_ H]. specialize (H Hp).
        discriminate H.
    + cbn [andb orb negb fst]. split; [|intros _; success_goal].
      intros _. split; intros; contradiction.
Qed.

Lemma deleteReservation_succeeds_iff_witness :
  Succeeds (fst (deleteReservation (Sample.del Sample.U1 31) Sample.db)).
Proof.
  apply (deleteReservation_succeeds_iff unit (Sample.del Sample.U1 31) Sample.db
           Sample.R2 eq_refl).
  split; [reflexivity | discriminate].
Defined.

(** X6: [deleteReservation] removes at most one document and nothing else
    changes: the pharmacies and medicines are kept, and either the store is
    the one it was given, or exactly the first reservation with the
    requested id is taken out and all others stay in place. *)
Theorem deleteReservation_removes_one (B : Type) (req : Req.t ObjectId B)
    (db : Store) :
  let db' := snd (deleteReservation req db) in
  pharmacies db' = pharmacies db
  /\ medicines db' = medicines db
  /\ (db' = db
      \/ exists l1 r l2,
           reservations db = (l1 ++ r :: l2)%list
           /\ reservations db' = (l1 ++ l2)%list
           /\ Reservation._id r = Req.params req
           /\ (forall x, In x l1 -> Reservation._id x <> Req.params req)
           /\ Succeeds (fst (deleteReservation req db))).
Proof.
  cbn zeta.
  destruct (Reservation.findById (Req.params req) (reservations db)) as [r|] eqn:Hfind.
  - rewrite (deleteReservation_found B req db r Hfind).
    match goal with |- context [if ?c then _ else _] => destruct c end;
      cbn [fst snd pharmacies medicines reservations].
    + auto.
    + repeat split. right.
      destruct (deleteById_split _ _ _ Hfind) as (l1 & l2 & E1 & E2 & Hid & Hl1).
      exists l1, r, l2. repeat split; auto.
  - assert (E : deleteReservation req db =
                (json_message 404 false "Reservation not found", db)).
    { run_handler. rewrite Hfind. reflexivity. }
    rewrite E. cbn. auto.
Qed.

(** ** Creating reservations, one after another *)

Lemma duplicate_filter_spec uid mid r :
  duplicate_filter uid mid r = true <-> pending_for uid mid r.
Proof.
  split.
  - intros H. destruct (duplicate_filter uid mid r) eqn:E; [|discriminate].
    unfold duplicate_filter in E. cbn [same_id] in E.
    apply andb_prop in E. destruct E as [E Hs].
    apply andb_prop in E. destruct E as [Hu Hm].
    apply Nat.eqb_eq in Hu, Hm. apply String.eqb_eq in Hs.
    repeat split; congruence.
  - apply pending_filter_true.
Qed.

(** What a successful [createReservation] went through and what it did. *)
Lemma createReservation_success_inv (now : Timestamp)
    (req : Req.t unit CreateReservationBody) (db : Store) :
  Response.success (fst (createReservation now req db)) = true ->
  exists mid m,
    validationResult req = []
    /\ medicine (Req.body req) = Some mid
    /\ Medicine.findById mid (medicines db) = Some m
    /\ Medicine.availability m = true
    /\ Reservation.findOne (duplicate_filter (User._id (Req.user req)) mid)
         (reservations db) = None
    /\ createReservation now req db =
         (json_data 201
            (ReservationDoc
               (created_reservation now db (User._id (Req.user req)) mid
                  (Medicine.pharmacy m))),
          mkStore (pharmacies db) (medicines db)
            (reservations db
             ++ [created_reservation now db (User._id (Req.user req)) mid
                   (Medicine.pharmacy m)])%list).
Proof.
  unfold duplicate_filter. run_handler.
  destruct (Req.validation req) eqn:Hval; [|cbn; discriminate].
  destruct (medicine (Req.body req)) as [mid|] eqn:Hmid; [|cbn; discriminate].
  destruct (Medicine.findById mid (medicines db)) as [m|] eqn:Hm; [|cbn; discriminate].
  destruct (Medicine.availability m) eqn:Hav; [|cbn; discriminate].
  destruct (Reservation.findOne _ (reservations db)) eqn:Hone; [cbn; discriminate|].
  intros _. exists mid, m. repeat split; auto.
Qed.

Lemma findOne_none_all (f : Reservation.t -> bool) coll :
  Reservation.findOne f coll = None -> forall r, In r coll -> f r = false.
Proof. unfold Reservation.findOne. intros H r Hin. exact (find_none f coll H r Hin). Qed.

Lemma createReservation_duplicate (now : Timestamp)
    (req : Req.t unit CreateReservationBody) (db : Store) mid m r :
  validationResult req = [] ->
  medicine (Req.body req) = Some mid ->
  Medicine.findById mid (medicines db) = Some m ->
  Medicine.availability m = true ->
  In r (reservations db) ->
  pending_for (User._id (Req.user req)) mid r ->
  createReservation now req db =
    (json_message 400 false
       "You already have a pending reservation for this medicine", db).
Proof.
  intros Hval Hmid Hm Hav Hin Hpending. run_handler.
  rewrite Hval, Hmid, Hm, Hav.
  destruct (Reservation_findOne_exists
              (fun x => (Reservation.user x =? User._id (Req.user req))
                        && same_id (Some mid) (Reservation.medicine x)
                        && (Reservation.status x =? "pending")%string)
              _ _ Hin (pending_filter_true _ _ _ Hpending)) as [r' Hr'].
  rewrite Hr'. reflexivity.
Qed.

(** X7: right after a successful [createReservation], the same user asking
    for the same medicine again (validated input, at any later time) is
    answered 400 "You already have a pending reservation for this medicine",
    and that second call stores nothing. *)
Theorem second_createReservation_rejected (now now' : Timestamp)
    (req req' : Req.t unit CreateReservationBody) (db : Store) :
  Response.success (fst (createReservation now req db)) = true ->
  User._id (Req.user req') = User._id (Req.user req) ->
  medicine (Req.body req') = medicine (Req.body req) ->
  validationResult req' = [] ->
  createReservation now' req' (snd (createReservation now req db)) =
    (json_message 400 false
       "You already have a pending reservation for this medicine",
     snd (createReservation now req db)).
Proof.
  intros Hok Hu Hbody Hval'.
  destruct (createReservation_success_inv now req db Hok)
    as (mid & m & Hval & Hmid & Hm & Hav & Hone & E).
  rewrite E. cbn [snd].
  set (r := created_reservation now db (User._id (Req.user req)) mid
              (Medicine.pharmacy m)).
  set (db1 := mkStore (pharmacies db) (medicines db) (reservations db ++ [r])%list).
  assert (Hmid' : medicine (Req.body req') = Some mid) by congruence.
  apply (createReservation_duplicate now' req' db1 mid m r); auto.
  - cbn. apply in_or_app. right. now left.
  - rewrite Hu. repeat split.
Qed.

Lemma second_createReservation_rejected_witness :
  createReservation 201 (Sample.post Sample.U2 (Some 20))
    (snd (createReservation 200 (Sample.post Sample.U2 (Some 20)) Sample.db)) =
    (json_message 400 false
       "You already have a pending reservation for this medicine",
     snd (createReservation 200 (Sample.post Sample.U2 (Some 20)) Sample.db)).
Proof.
  exact (second_createReservation_rejected 200 201
           (Sample.post Sample.U2 (Some 20)) (Sample.post Sample.U2 (Some 20))
           Sample.db eq_refl eq_refl eq_refl eq_refl).
Defined.

Lemma NoDup_snoc {A} (l : list A) (a : A) :
  NoDup l -> ~ In a l -> NoDup (l ++ [a]).
Proof.
  intros Hl Ha. apply NoDup_app; auto.
  - constructor; [intros [] | constructor].
  - intros x Hx [<-|[]]. contradiction.
Qed.

Lemma createReservation_ok (now : Timestamp)
    (req : Req.t unit CreateReservationBody) (db : Store) mid m :
  validationResult req = [] ->
  medicine (Req.body req) = Some mid ->
  Medicine.findById mid (medicines db) = Some m ->
  Medicine.availability m = true ->
  (forall r, In r (reservations db) ->
             duplicate_filter (User._id (Req.user req)) mid r = false) ->
  createReservation now req db =
    (json_data 201
       (ReservationDoc
          (created_reservation now db (User._id (Req.user req)) mid
             (Medicine.pharmacy m))),
     mkStore (pharmacies db) (medicines db)
       (reservations db
        ++ [created_reservation now db (User._id (Req.user req)) mid
              (Medicine.pharmacy m)])%list).
Proof.
  intros Hval Hmid Hm Hav Hnone. run_handler. rewrite Hval, Hmid, Hm, Hav.
  rewrite (Reservation_findOne_none
             (fun x => (Reservation.user x =? User._id (Req.user req))
                       && same_id (Some mid) (Reservation.medicine x)
                       && (Reservation.status x =? "pending")%string))
    by exact Hnone.
  reflexivity.
Qed.

Lemma findById_snoc_fresh id coll r :
  ~ In id (map Reservation._id coll) -> Reservation._id r = id ->
  Reservation.findById id (coll ++ [r]) = Some r.
Proof.
  unfold Reservation.findById.
  induction coll as [|x coll IH]; intros Hnot Hid; cbn [app find].
  - rewrite Hid, Nat.eqb_refl. reflexivity.
  - destruct (Nat.eqb_spec (Reservation._id x) id) as [E|E].
    + exfalso. apply Hnot. left. exact E.
    + apply IH; auto. intros Hin. apply Hnot. right. exact Hin.
Qed.

Lemma updateById_snoc_fresh id s coll r :
  ~ In id (map Reservation._id coll) -> Reservation._id r = id ->
  Reservation.updateById id s (coll ++ [r]) = (coll ++ [Reservation.set_status s r])%list.
Proof.
  induction coll as [|x coll IH]; intros Hnot Hid; cbn [app Reservation.updateById].
  - rewrite Hid, Nat.eqb_refl. reflexivity.
  - destruct (Nat.eqb_spec (Reservation._id x) id) as [E|E].
    + exfalso. apply Hnot. left. exact E.
    + f_equal. apply IH; auto. intros Hin. apply Hnot. right. exact Hin.
Qed.

Lemma updateReservationStatus_consumer_cancel
    (req : Req.t ObjectId UpdateStatusBody) (db : Store) (r : Reservation.t) :
  validationResult req = [] ->
  User.role (Req.user req) = "consumer" ->
  Reservation.findById (Req.params req) (reservations db) = Some r ->
  Reservation.user r = User._id (Req.user req) ->
  status (Req.body req) = "cancelled" ->
  updateReservationStatus req db =
    (json_data 200 (ReservationDoc (Reservation.set_status "cancelled" r)),
     mkStore (pharmacies db) (medicines db)
       (Reservation.updateById (Req.params req) "cancelled" (reservations db))).
Proof.
  intros Hval Hrole Hfind Hu Hs. run_handler.
  rewrite Hval, Hfind, Hrole, Hu, Hs, Nat.eqb_refl. eval_tests.
  rewrite (Reservation_findById_updateById _ "cancelled" _ _ Hfind). reflexivity.
Qed.

(** X8: the duplicate check looks at pending reservations only.  After a
    consumer has created a reservation and cancelled it (using the [_id] of
    the document the first call returned), the same request creates a new
    reservation: the cancel answers 200 and the second create answers 201. *)
Theorem reserve_cancel_reserve (now now' : Timestamp)
    (req : Req.t unit CreateReservationBody)
    (cancel : Req.t ObjectId UpdateStatusBody)
    (db db1 : Store) (r : Reservation.t) :
  createReservation now req db = (json_data 201 (ReservationDoc r), db1) ->
  User.role (Req.user req) = "consumer" ->
  Req.user cancel = Req.user req ->
  Req.params cancel = Reservation._id r ->
  validationResult cancel = [] ->
  status (Req.body cancel) = "cancelled" ->
  let (res2, db2) := updateReservationStatus cancel db1 in
  res2 = json_data 200 (ReservationDoc (Reservation.set_status "cancelled" r))
  /\ Response.status (fst (createReservation now' req db2)) = 201
  /\ List.length (reservations (snd (createReservation now' req db2)))
     = 2 + List.length (reservations db).
Proof.
  intros Hcreate Hrole Hu Hid Hval Hs.
  assert (Hok : Response.success (fst (createReservation now req db)) = true)
    by (rewrite Hcreate; reflexivity).
  destruct (createReservation_success_inv now req db Hok)
    as (mid & m & Hval0 & Hmid & Hm & Hav & Hone & E).
  rewrite E in Hcreate. injection Hcreate as Hr Hdb1.
  set (r0 := created_reservation now db (User._id (Req.user req)) mid
               (Medicine.pharmacy m)) in *.
  assert (Hfresh : ~ In (Reservation._id r) (map Reservation._id (reservations db))).
  { rewrite <- Hr. apply newObjectId_fresh. }
  assert (Hfind : Reservation.findById (Req.params cancel) (reservations db1) = Some r).
  { rewrite <- Hdb1, Hid, Hr. cbn [reservations].
    apply findById_snoc_fresh; auto. }
  rewrite (updateReservationStatus_consumer_cancel cancel db1 r Hval
             ltac:(now rewrite Hu) Hfind
             ltac:(rewrite Hu, <- Hr; reflexivity) Hs).
  split; [reflexivity|].
  assert (Hupd : Reservation.updateById (Req.params cancel) "cancelled" (reservations db1)
                 = (reservations db ++ [Reservation.set_status "cancelled" r])%list).
  { rewrite <- Hdb1, Hid, Hr. cbn [reservations].
    apply updateById_snoc_fresh; auto. }
  rewrite Hupd.
  rewrite (createReservation_ok now' req _ mid m Hval0 Hmid).
  - cbn [fst snd reservations]. rewrite <- Hdb1. cbn [pharmacies medicines].
    split; [reflexivity|]. rewrite !length_app. cbn. lia.
  - rewrite <- Hdb1. exact Hm.
  - exact Hav.
  - cbn [reservations]. intros x Hin. apply in_app_or in Hin.
    destruct Hin as [Hin|[<-|[]]].
    + exact (findOne_none_all _ _ Hone x Hin).
    + unfold duplicate_filter. cbn. now rewrite andb_false_r.
Qed.

Lemma reserve_cancel_reserve_witness :
  let r := Reservation.mk 32 4 20 10 "pending" 200 200 in
  let db1 := mkStore [Sample.P1] [Sample.M1; Sample.M2] [Sample.R1; Sample.R2; r] in
  let (res2, db2) := updateReservationStatus (Sample.put Sample.U2 32 "cancelled") db1 in
  res2 = json_data 200 (ReservationDoc (Reservation.set_status "cancelled" r))
  /\ Response.status
       (fst (createReservation 300 (Sample.post Sample.U2 (Some 20)) db2)) = 201
  /\ List.length
       (reservations (snd (createReservation 300 (Sample.post Sample.U2 (Some 20)) db2)))
     = 2 + List.length (reservations Sample.db).
Proof.
  exact (reserve_cancel_reserve 200 300 (Sample.post Sample.U2 (Some 20))
           (Sample.put Sample.U2 32 "cancelled") Sample.db _ _
           eq_refl eq_refl eq_refl eq_refl eq_refl eq_refl).
Defined.

(** ** Invariants the handlers keep *)

Lemma filter_pending_snoc coll r :
  Reservation.status r = "pending" ->
  filter (fun x => (Reservation.status x =? "pending")%string) (coll ++ [r])
  = (filter (fun x => (Reservation.status x =? "pending")%string) coll ++ [r])%list.
Proof.
  intros Hs. rewrite filter_app. cbn [filter]. rewrite Hs. reflexivity.
Qed.

(** X9: when requests are served one at a time, so that no other request
    runs between the duplicate check and the insert of a call,
    [createReservation] keeps the rule "at most one pending reservation per
    (user, medicine)": if no two pending reservations of the store share
    their user and medicine, the same holds of the store the call returns,
    whatever the request. *)
Theorem createReservation_keeps_one_pending_per_pair (now : Timestamp)
    (req : Req.t unit CreateReservationBody) (db : Store) :
  one_pending_per_pair db ->
  one_pending_per_pair (snd (createReservation now req db)).
Proof.
  intros Hinv.
  destruct (Response.success (fst (createReservation now req db))) eqn:Hok.
  - destruct (createReservation_success_inv now req db Hok)
      as (mid & m & Hval & Hmid & Hm & Hav & Hone & E).
    rewrite E. unfold one_pending_per_pair in *. cbn [snd reservations].
    rewrite filter_pending_snoc by reflexivity.
    rewrite map_app. cbn [map]. apply NoDup_snoc; [exact Hinv|].
    intros Hin. apply in_map_iff in Hin. destruct Hin as (x & Hkey & Hx).
    apply filter_In in Hx. destruct Hx as [Hx Hpending].
    pose proof (findOne_none_all _ _ Hone x Hx) as Hf.
    unfold pending_key in Hkey. cbn in Hkey. injection Hkey as Hu Hmed.
    unfold duplicate_filter in Hf. cbn [same_id] in Hf.
    rewrite Hu, Hmed, !Nat.eqb_refl, Hpending in Hf. discriminate Hf.
  - rewrite createReservation_failure_store by exact Hok. exact Hinv.
Qed.

Lemma createReservation_keeps_one_pending_per_pair_witness :
  one_pending_per_pair
    (snd (createReservation 200 (Sample.post Sample.U2 (Some 20)) Sample.db)).
Proof.
  apply createReservation_keeps_one_pending_per_pair.
  unfold one_pending_per_pair. cbn.
  constructor; [intros [] | constructor].
Defined.

Lemma deleteById_remove_first id coll :
  Reservation.deleteById id coll
  = remove_first (fun r => Reservation._id r =? id) coll.
Proof.
  induction coll as [|x coll IH]; cbn; [reflexivity|].
  destruct (Reservation._id x =? id); [reflexivity | now rewrite IH].
Qed.

Lemma remove_first_incl {A} (g : A -> bool) (l : list A) :
  incl (remove_first g l) l.
Proof.
  induction l as [|x l IH]; cbn; [apply incl_refl|].
  destruct (g x); [apply incl_tl, incl_refl|].
  intros y [<-|Hy]; [now left | right; now apply IH].
Qed.

Lemma NoDup_map_remove_first {A K} (key : A -> K) (g : A -> bool) (l : list A) :
  NoDup (map key l) -> NoDup (map key (remove_first g l)).
Proof.
  induction l as [|x l IH]; cbn; intros Hnd; [constructor|].
  apply NoDup_cons_iff in Hnd. destruct Hnd as [Hx Hl].
  destruct (g x); [exact Hl|].
  cbn. constructor; [|now apply IH].
  intros Hin. apply Hx. apply in_map_iff in Hin. destruct Hin as (y & Hy & Hin).
  apply in_map_iff. exists y. split; [exact Hy|].
  exact (remove_first_incl g l y Hin).
Qed.

Lemma updateById_ids id s coll :
  map Reservation._id (Reservation.updateById id s coll) = map Reservation._id coll.
Proof.
  induction coll as [|x coll IH]; cbn; [reflexivity|].
  destruct (Reservation._id x =? id); cbn; [reflexivity | now rewrite IH].
Qed.

Lemma deleteReservation_store (B : Type) (req : Req.t ObjectId B) (db : Store) :
  snd (deleteReservation req db) = db
  \/ snd (deleteReservation req db) =
       mkStore (pharmacies db) (medicines db)
         (Reservation.deleteById (Req.params req) (reservations db)).
Proof.
  destruct (Reservation.findById (Req.params req) (reservations db)) as [r|] eqn:Hfind.
  - rewrite (deleteReservation_found B req db r Hfind).
    match goal with |- context [if ?c then _ else _] => destruct c end; cbn; auto.
  - left. run_handler. rewrite Hfind. reflexivity.
Qed.

Lemma createPharmacy_store (now : Timestamp) (req : Req.t unit Pharmacy.fields)
    (db : Store) :
  snd (createPharmacy now req db) = db
  \/ exists p,
       createPharmacy now req db =
         (json_data 201 (PharmacyDoc p),
          mkStore (pharmacies db ++ [p])%list (medicines db) (reservations db))
       /\ Pharmacy._id p = newObjectId (map Pharmacy._id (pharmacies db))
       /\ Pharmacy.user p = User._id (Req.user req)
       /\ Pharmacy.license p = trim (Pharmacy.f_license (Req.body req))
       /\ Pharmacy.findOne (fun q => Pharmacy.user q =? User._id (Req.user req))
            (pharmacies db) = None
       /\ existsb (fun q => (Pharmacy.license q =? Pharmacy.license p)%string)
            (pharmacies db) = false.
Proof.
  run_handler.
  destruct (Req.validation req); [|left; reflexivity].
  destruct (Pharmacy.findOne _ (pharmacies db)) eqn:Hone; [left; reflexivity|].
  eval_tests_keep.
  match goal with
  | |- context [if Pharmacy.validate ?d then _ else _] =>
      destruct (Pharmacy.validate d); [|left; reflexivity]
  end.
  match goal with
  | |- context [if existsb ?f ?l then _ else _] => destruct (existsb f l) eqn:Hdup
  end; [left; reflexivity|].
  right. eexists. split; [reflexivity|]. cbn. repeat split; auto.
Qed.

Lemma deletePharmacy_store (B : Type) (req : Req.t ObjectId B) (db : Store) :
  snd (deletePharmacy req db) = db
  \/ snd (deletePharmacy req db) =
       mkStore (remove_first (fun p => Pharmacy._id p =? Req.params req) (pharmacies db))
         (medicines db) (reservations db).
Proof.
  unfold deletePharmacy, Pharmacy_findById, Pharmacy_findByIdAndDelete. run_handler.
  destruct (Pharmacy.findById (Req.params req) (pharmacies db)) as [p|];
    [|left; reflexivity].
  match goal with |- context [if ?c then _ else _] => destruct c end; cbn; auto.
Qed.

Lemma deleteMedicine_store (B : Type) (req : Req.t ObjectId B) (db : Store) :
  snd (deleteMedicine req db) = db
  \/ snd (deleteMedicine req db) =
       mkStore (pharmacies db)
         (remove_first (fun m => Medicine._id m =? Req.params req) (medicines db))
         (reservations db).
Proof.
  unfold deleteMedicine, Pharmacy_findById, Medicine_findByIdAndDelete,
    null_dereference.
  run_handler.
  destruct (Medicine.findById (Req.params req) (medicines db)) as [m|];
    [|left; reflexivity].
  destruct (Pharmacy.findById (Medicine.pharmacy m) (pharmacies db)) as [p|];
    [|left; reflexivity].
  match goal with |- context [if ?c then _ else _] => destruct c end; cbn; auto.
Qed.

(** X10: every handler that writes keeps [_id]s unique.  If no two documents
    of a collection share an [_id], this still holds after
    [createReservation], [updateReservationStatus], [deleteReservation],
    [createPharmacy], [deletePharmacy] and [deleteMedicine], whatever the
    request and its outcome. *)
Theorem handlers_keep_unique_ids (db : Store) :
  unique_ids db ->
  (forall now req, unique_ids (snd (createReservation now req db)))
  /\ (forall req, unique_ids (snd (updateReservationStatus req db)))
  /\ (forall (req : Req.t ObjectId unit), unique_ids (snd (deleteReservation req db)))
  /\ (forall now req, unique_ids (snd (createPharmacy now req db)))
  /\ (forall (req : Req.t ObjectId unit), unique_ids (snd (deletePharmacy req db)))
  /\ (forall (req : Req.t ObjectId unit), unique_ids (snd (deleteMedicine req db))).
Proof.
  intros (Hp & Hm & Hr). unfold unique_ids. repeat split; intros.
  all: try match goal with
    | |- context [createReservation ?now ?req ?d] =>
        destruct (Response.success (fst (createReservation now req db))) eqn:Hok;
        [ destruct (createReservation_success_inv now req db Hok)
            as (mid & m & _ & _ & _ & _ & _ & E); rewrite E
        | rewrite createReservation_failure_store by exact Hok ]
    | |- context [updateReservationStatus ?req ?d] =>
        destruct (updateReservationStatus_store req db) as [E|E]; rewrite E
    | |- context [deleteReservation ?req ?d] =>
        destruct (deleteReservation_store unit req db) as [E|E]; rewrite E
    | |- context [createPharmacy ?now ?req ?d] =>
        destruct (createPharmacy_store now req db) as [E|(p & E & Hid & _)];
        rewrite E
    | |- context [deletePharmacy ?req ?d] =>
        destruct (deletePharmacy_store unit req db) as [E|E]; rewrite E
    | |- context [deleteMedicine ?req ?d] =>
        destruct (deleteMedicine_store unit req db) as [E|E]; rewrite E
    end;
    cbn [snd pharmacies medicines reservations]; auto.
  - rewrite map_app. cbn [map]. apply NoDup_snoc; auto. apply newObjectId_fresh.
  - rewrite updateById_ids. exact Hr.
  - rewrite deleteById_remove_first. now apply NoDup_map_remove_first.
  - rewrite map_app. cbn [map]. apply NoDup_snoc; auto.
    rewrite Hid. apply newObjectId_fresh.
  - now apply NoDup_map_remove_first.
  - now apply NoDup_map_remove_first.
Qed.

Lemma handlers_keep_unique_ids_witness :
  unique_ids (snd (createReservation 200 (Sample.post Sample.U2 (Some 20)) Sample.db)).
Proof.
  refine (proj1 (handlers_keep_unique_ids Sample.db _) 200
            (Sample.post Sample.U2 (Some 20))).
  unfold unique_ids. cbn.
  repeat split; repeat constructor; cbn; intuition discriminate.
Defined.

(** X11: when [_id]s are unique, a reservation that has been deleted is
    gone: after a successful [deleteReservation] no document has that id,
    and a further delete or (validated) status update of it answers 404 and
    changes nothing. *)
Theorem deleted_reservation_not_found (B : Type) (req : Req.t ObjectId B)
    (db : Store) :
  NoDup (map Reservation._id (reservations db)) ->
  Succeeds (fst (deleteReservation req db)) ->
  let db' := snd (deleteReservation req db) in
  Reservation.findById (Req.params req) (reservations db') = None
  /\ (forall (B' : Type) (req' : Req.t ObjectId B'),
        Req.params req' = Req.params req ->
        deleteReservation req' db' =
          (json_message 404 false "Reservation not found", db'))
  /\ (forall req' : Req.t ObjectId UpdateStatusBody,
        Req.params req' = Req.params req -> validationResult req' = [] ->
        updateReservationStatus req' db' =
          (json_message 404 false "Reservation not found", db')).
Proof.
  intros Hnd Hok. cbn zeta.
  assert (Hgone : Reservation.findById (Req.params req)
                    (reservations (snd (deleteReservation req db))) = None).
  { destruct (Reservation.findById (Req.params req) (reservations db)) as [r|] eqn:Hfind.
    - rewrite (deleteReservation_found B req db r Hfind) in *.
      match goal with |- context [if ?c then _ else _] => destruct c end;
        cbn [fst snd reservations] in *; [failure_case|].
      destruct (deleteById_split _ _ _ Hfind) as (l1 & l2 & E1 & E2 & Hid & Hl1).
      rewrite E2. apply Reservation_findById_absent.
      rewrite E1, map_app in Hnd. cbn [map] in Hnd.
      pose proof (NoDup_remove_2 _ _ _ Hnd) as Hnot.
      rewrite Hid in Hnot. rewrite map_app. exact Hnot.
    - assert (E : deleteReservation req db =
                  (json_message 404 false "Reservation not found", db)).
      { run_handler. rewrite Hfind. reflexivity. }
      rewrite E in Hok. cbn [fst] in Hok. failure_case. }
  split; [exact Hgone|].
  revert Hgone. generalize (snd (deleteReservation req db)) as db'.
  intros db' Hgone. split.
  - intros B' req' Hid. run_handler. rewrite Hid, Hgone. reflexivity.
  - intros req' Hid Hval. run_handler. rewrite Hval, Hid, Hgone. reflexivity.
Qed.

Lemma deleted_reservation_not_found_witness :
  deleteReservation (Sample.del Sample.admin 31)
    (snd (deleteReservation (Sample.del Sample.U1 31) Sample.db))
  = (json_message 404 false "Reservation not found",
     snd (deleteReservation (Sample.del Sample.U1 31) Sample.db)).
Proof.
  assert (Hnd : NoDup (map Reservation._id (reservations Sample.db))).
  { cbn. repeat constructor; cbn; intuition discriminate. }
  assert (Hok : Succeeds (fst (deleteReservation (Sample.del Sample.U1 31) Sample.db))).
  { unfold Succeeds. cbn. auto. }
  exact (proj1 (proj2 (deleted_reservation_not_found unit
                         (Sample.del Sample.U1 31) Sample.db Hnd Hok))
           unit (Sample.del Sample.admin 31) eq_refl).
Defined.

(** ** Creating a pharmacy *)

Lemma find_snoc {A} (f : A -> bool) (l : list A) (a : A) :
  (forall x, In x l -> f x = false) -> f a = true ->
  find f (l ++ [a]) = Some a.
Proof.
  intros Hl Ha. induction l as [|x l IH]; cbn.
  - now rewrite Ha.
  - rewrite (Hl x) by now left. apply IH. intros y Hy. apply Hl. now right.
Qed.

Lemma Pharmacy_findOne_none_all uid coll :
  Pharmacy.findOne (fun q => Pharmacy.user q =? uid) coll = None ->
  forall p, In p coll -> Pharmacy.user p <> uid.
Proof.
  unfold Pharmacy.findOne. intros H p Hin.
  apply Nat.eqb_neq. exact (find_none _ _ H p Hin).
Qed.

(** The answer of [createPharmacy] for a validated request of a user who
    has no pharmacy, by what [Pharmacy.create] finds. *)
Lemma createPharmacy_new_owner (now : Timestamp) (req : Req.t unit Pharmacy.fields)
    (db : Store) :
  validationResult req = [] ->
  (forall q, In q (pharmacies db) -> Pharmacy.user q <> User._id (Req.user req)) ->
  let p := created_pharmacy now db (Req.user req) (Req.body req) in
  createPharmacy now req db =
    if negb (Pharmacy.validate p)
    then (json_message 500 false "Server error", db)
    else if license_taken db (Pharmacy.license p)
    then (json_message 400 false "License number already exists", db)
    else (json_data 201 (PharmacyDoc p),
          mkStore (pharmacies db ++ [p])%list (medicines db) (reservations db)).
Proof.
  intros Hval Hnone. cbn zeta. unfold license_taken, created_pharmacy.
  run_handler. rewrite Hval, (Pharmacy_findOne_none _ _ Hnone).
  eval_tests_keep.
  match goal with
  | |- context [if Pharmacy.validate ?d then _ else _] =>
      destruct (Pharmacy.validate d); [|reflexivity]
  end.
  match goal with
  | |- context [if existsb ?f ?l then _ else _] => destruct (existsb f l)
  end; reflexivity.
Qed.

(** X12: a license that a stored pharmacy already has is refused.  For a
    validated request of a user without a pharmacy whose fields the schema
    validators accept, [createPharmacy] answers 400 "License number already
    exists" when the trimmed license equals a stored one, and stores
    nothing. *)
Theorem createPharmacy_duplicate_license (now : Timestamp)
    (req : Req.t unit Pharmacy.fields) (db : Store) (p : Pharmacy.t) :
  validationResult req = [] ->
  (forall q, In q (pharmacies db) -> Pharmacy.user q <> User._id (Req.user req)) ->
  Pharmacy.validate (created_pharmacy now db (Req.user req) (Req.body req)) = true ->
  In p (pharmacies db) ->
  Pharmacy.license p = trim (Pharmacy.f_license (Req.body req)) ->
  createPharmacy now req db =
    (json_message 400 false "License number already exists", db).
Proof.
  intros Hval Hnone Hschema Hin Hlic.
  rewrite (createPharmacy_new_owner now req db Hval Hnone). cbn zeta.
  rewrite Hschema. cbn [negb].
  assert (Htaken : license_taken db
                     (Pharmacy.license
                        (created_pharmacy now db (Req.user req) (Req.body req)))
                   = true).
  { unfold license_taken. apply existsb_exists. exists p.
    split; [exact Hin | now apply String.eqb_eq]. }
  rewrite Htaken. reflexivity.
Qed.

Lemma createPharmacy_duplicate_license_witness :
  createPharmacy 200
    (Sample.post_pharmacy Sample.newcomer
       (Pharmacy.mkFields "New Chemist" "Kisumu" "  PPB-001 " "0722222222" None))
    Sample.db
  = (json_message 400 false "License number already exists", Sample.db).
Proof.
  apply (createPharmacy_duplicate_license 200
           (Sample.post_pharmacy Sample.newcomer
              (Pharmacy.mkFields "New Chemist" "Kisumu" "  PPB-001 " "0722222222" None))
           Sample.db Sample.P1 eq_refl).
  - intros q [<-|[]]. cbn. discriminate.
  - reflexivity.
  - now left.
  - reflexivity.
Defined.

(** What a successful [createPharmacy] did. *)
Lemma createPharmacy_success_inv (now : Timestamp)
    (req : Req.t unit Pharmacy.fields) (db db1 : Store) (p : Pharmacy.t) :
  createPharmacy now req db = (json_data 201 (PharmacyDoc p), db1) ->
  db1 = mkStore (pharmacies db ++ [p])%list (medicines db) (reservations db)
  /\ Pharmacy._id p = newObjectId (map Pharmacy._id (pharmacies db))
  /\ Pharmacy.user p = User._id (Req.user req)
  /\ Pharmacy.findOne (fun q => Pharmacy.user q =? User._id (Req.user req))
       (pharmacies db) = None.
Proof.
  run_handler.
  destruct (Req.validation req); [|cbn; discriminate].
  destruct (Pharmacy.findOne _ (pharmacies db)) eqn:Hone; [cbn; discriminate|].
  eval_tests_keep.
  match goal with
  | |- context [if Pharmacy.validate ?d then _ else _] =>
      destruct (Pharmacy.validate d); [|cbn; discriminate]
  end.
  match goal with
  | |- context [if existsb ?f ?l then _ else _] => destruct (existsb f l)
  end; [cbn; discriminate|].
  intros H. injection H as Hp Hdb. subst p db1. cbn. repeat split.
Qed.

(** X13: a pharmacy that has just been created can be read back, and its
    owner cannot create another.  Whatever document [p] a [createPharmacy]
    returns with 201, its [user] is the principal; in the store that call
    returns, [getPharmacy] with [p._id] and [getMyPharmacy] of that user both
    answer 200 with [p], and any further validated [createPharmacy] by that
    user is answered 400 "User already has a pharmacy" and stores nothing. *)
Theorem created_pharmacy_read_back (now : Timestamp)
    (req : Req.t unit Pharmacy.fields) (db db1 : Store) (p : Pharmacy.t) :
  createPharmacy now req db = (json_data 201 (PharmacyDoc p), db1) ->
  Pharmacy.user p = User._id (Req.user req)
  /\ (forall (B : Type) (get : Req.t ObjectId B),
        Req.params get = Pharmacy._id p ->
        getPharmacy get db1 = (json_data 200 (PharmacyDoc p), db1))
  /\ (forall (P B : Type) (get : Req.t P B),
        User._id (Req.user get) = User._id (Req.user req) ->
        getMyPharmacy get db1 = (json_data 200 (PharmacyDoc p), db1))
  /\ (forall now' (req' : Req.t unit Pharmacy.fields),
        User._id (Req.user req') = User._id (Req.user req) ->
        validationResult req' = [] ->
        createPharmacy now' req' db1 =
          (json_message 400 false "User already has a pharmacy", db1)).
Proof.
  intros Hcreate.
  destruct (createPharmacy_success_inv now req db db1 p Hcreate)
    as (Hdb1 & Hid & Huser & Hone).
  assert (Hmine : Pharmacy.findOne
                    (fun q => Pharmacy.user q =? User._id (Req.user req))
                    (pharmacies db1) = Some p).
  { rewrite Hdb1. cbn [pharmacies]. apply find_snoc.
    - intros x Hx. apply Nat.eqb_neq.
      exact (Pharmacy_findOne_none_all _ _ Hone x Hx).
    - rewrite Huser. apply Nat.eqb_refl. }
  assert (Hbyid : Pharmacy.findById (Pharmacy._id p) (pharmacies db1) = Some p).
  { rewrite Hdb1. cbn [pharmacies]. apply find_snoc.
    - intros x Hx. apply Nat.eqb_neq. intros Heq.
      apply (newObjectId_fresh (map Pharmacy._id (pharmacies db))).
      rewrite <- Hid, <- Heq. now apply in_map.
    - apply Nat.eqb_refl. }
  clear Hdb1 Hcreate. repeat split.
  - exact Huser.
  - intros B get Hget. unfold getPharmacy, Pharmacy_findById. run_handler.
    rewrite Hget, Hbyid. reflexivity.
  - intros P B get Hu. unfold getMyPharmacy. run_handler.
    rewrite Hu, Hmine. reflexivity.
  - intros now' req' Hu Hval'. run_handler. rewrite Hval', Hu, Hmine. reflexivity.
Qed.

Lemma created_pharmacy_read_back_witness :
  let p := Pharmacy.mk 11 "New Chemist" "Kisumu" "PPB-002" "0722222222" false 5 200 200 in
  let db1 := mkStore [Sample.P1; p] [Sample.M1; Sample.M2] [Sample.R1; Sample.R2] in
  getPharmacy (Sample.del Sample.U1 11) db1 = (json_data 200 (PharmacyDoc p), db1)
  /\ getMyPharmacy (Sample.del Sample.newcomer 0) db1
     = (json_data 200 (PharmacyDoc p), db1).
Proof.
  destruct (created_pharmacy_read_back 200
              (Sample.post_pharmacy Sample.newcomer
                 (Pharmacy.mkFields " New Chemist " "Kisumu" "PPB-002"
                    "0722222222" None))
              Sample.db _ _ eq_refl) as (_ & Hget & Hmine & _).
  split.
  - exact (Hget unit (Sample.del Sample.U1 11) eq_refl).
  - exact (Hmine ObjectId unit (Sample.del Sample.newcomer 0) eq_refl).
Defined.

(** X14: [createPharmacy] and [deletePharmacy] keep licenses unique: if no
    two pharmacies of the store share a license, none do in the store either
    handler returns, whatever the request. *)
Theorem pharmacy_handlers_keep_unique_licenses (db : Store) :
  unique_licenses db ->
  (forall now req, unique_licenses (snd (createPharmacy now req db)))
  /\ (forall req : Req.t ObjectId unit,
        unique_licenses (snd (deletePharmacy req db))).
Proof.
  unfold unique_licenses. intros Hl. split.
  - intros now req.
    destruct (createPharmacy_store now req db)
      as [E|(p & E & _ & _ & _ & _ & Hdup)]; rewrite E; [auto|].
    cbn [snd pharmacies]. rewrite !map_app. cbn [map].
    apply NoDup_snoc; [exact Hl|].
    intros Hin. apply in_map_iff in Hin. destruct Hin as (q & Hq & Hin).
    assert (Ht : existsb (fun q => (Pharmacy.license q =? Pharmacy.license p)%string)
                   (pharmacies db) = true).
    { apply existsb_exists. exists q. split; [exact Hin | now apply String.eqb_eq]. }
    congruence.
  - intros req. destruct (deletePharmacy_store unit req db) as [E|E]; rewrite E;
      [auto|].
    cbn [snd pharmacies]. now apply NoDup_map_remove_first.
Qed.

Lemma pharmacy_handlers_keep_unique_licenses_witness :
  unique_licenses
    (snd (createPharmacy 200
            (Sample.post_pharmacy Sample.newcomer
               (Pharmacy.mkFields "New Chemist" "Kisumu" "PPB-002" "0722222222" None))
            Sample.db)).
Proof.
  refine (proj1 (pharmacy_handlers_keep_unique_licenses Sample.db _) 200 _).
  unfold unique_licenses. cbn. repeat constructor. intros [].
Defined.

(** ** Deleting pharmacies and medicines *)

Ltac close_case :=
  cbn [negb andb orb fst snd pharmacies medicines reservations];
  repeat split; intros;
  first [ failure_case | solve [success_goal] | tauto | congruence | solve [auto]
        | solve [intuition congruence] ].

Lemma deletePharmacy_found (B : Type) (req : Req.t ObjectId B) (db : Store)
    (p : Pharmacy.t) :
  Pharmacy.findById (Req.params req) (pharmacies db) = Some p ->
  deletePharmacy req db =
    if negb (Pharmacy.user p =? User._id (Req.user req))
       && negb (User.role (Req.user req) =? "admin")%string
    then (json_message 403 false "Not authorized to delete this pharmacy", db)
    else (json_message 200 true "Pharmacy deleted successfully",
          mkStore
            (remove_first (fun q => Pharmacy._id q =? Req.params req) (pharmacies db))
            (medicines db) (reservations db)).
Proof.
  intros Hfind. unfold deletePharmacy, Pharmacy_findById, Pharmacy_findByIdAndDelete.
  run_handler. rewrite Hfind.
  destruct (Pharmacy.user p =? User._id (Req.user req));
    destruct (User.role (Req.user req) =? "admin")%string; reflexivity.
Qed.

Lemma remove_first_split {A} (f : A -> bool) (l : list A) (a : A) :
  find f l = Some a ->
  exists l1 l2,
    l = (l1 ++ a :: l2)%list
    /\ remove_first f l = (l1 ++ l2)%list
    /\ (forall x, In x l1 -> f x = false).
Proof.
  induction l as [|x l IH]; cbn; intros H; [discriminate|].
  destruct (f x) eqn:E.
  - injection H as ->. exists [], l. cbn. intuition.
  - destruct (IH H) as (l1 & l2 & -> & Hdel & Hl1).
    exists (x :: l1), l2. cbn. rewrite Hdel. repeat split; auto.
    intros y [<-|Hy]; auto.
Qed.

(** X15: an existing pharmacy is deleted exactly when the principal is its
    owner or an admin: the call then succeeds and takes that document, and
    only it, out of the pharmacies; otherwise the store is the one it was
    given.  The delete does not cascade: in every outcome the medicines and
    the reservations, including those that refer to the pharmacy, are left
    as they were. *)
Theorem deletePharmacy_owner_or_admin (B : Type) (req : Req.t ObjectId B)
    (db : Store) (p : Pharmacy.t) :
  Pharmacy.findById (Req.params req) (pharmacies db) = Some p ->
  (Succeeds (fst (deletePharmacy req db))
   <-> Pharmacy.user p = User._id (Req.user req)
       \/ User.role (Req.user req) = "admin")
  /\ medicines (snd (deletePharmacy req db)) = medicines db
  /\ reservations (snd (deletePharmacy req db)) = reservations db
  /\ (Succeeds (fst (deletePharmacy req db)) ->
      exists l1 l2,
        pharmacies db = (l1 ++ p :: l2)%list
        /\ pharmacies (snd (deletePharmacy req db)) = (l1 ++ l2)%list
        /\ (forall x, In x l1 -> Pharmacy._id x <> Req.params req))
  /\ (~ Succeeds (fst (deletePharmacy req db)) ->
      snd (deletePharmacy req db) = db).
Proof.
  intros Hfind. rewrite (deletePharmacy_found B req db p Hfind).
  destruct (remove_first_split _ _ _ Hfind) as (l1 & l2 & E1 & E2 & Hl1).
  assert (Hbefore : forall x, In x l1 -> Pharmacy._id x <> Req.params req)
    by (intros x Hx; apply Nat.eqb_neq; now apply Hl1).
  destruct (Nat.eqb_spec (Pharmacy.user p) (User._id (Req.user req))) as [Hu|Hu];
    destruct (String.eqb_spec (User.role (Req.user req)) "admin") as [Ha|Ha];
    cbn [negb andb orb fst snd pharmacies medicines reservations];
    (split; [split; intros; first [failure_case | solve [success_goal] | tauto]|]);
    (split; [reflexivity|]); (split; [reflexivity|]);
    (split;
     [ intros Hok; first [failure_case | exists l1, l2; repeat split; auto]
     | intros Hno; first [reflexivity | exfalso; apply Hno; success_goal] ]).
Qed.

Lemma deletePharmacy_owner_or_admin_witness :
  Succeeds (fst (deletePharmacy (Sample.del Sample.admin 10) Sample.db))
  /\ medicines (snd (deletePharmacy (Sample.del Sample.admin 10) Sample.db))
     = [Sample.M1; Sample.M2].
Proof.
  destruct (deletePharmacy_owner_or_admin unit (Sample.del Sample.admin 10)
              Sample.db Sample.P1 eq_refl) as (Hiff & Hmed & _).
  split; [apply Hiff; right; reflexivity | exact Hmed].
Defined.

Lemma deleteMedicine_found (B : Type) (req : Req.t ObjectId B) (db : Store)
    (m : Medicine.t) :
  Medicine.findById (Req.params req) (medicines db) = Some m ->
  deleteMedicine req db =
    match Pharmacy.findById (Medicine.pharmacy m) (pharmacies db) with
    | None => (json_message 500 false "Server error", db)
    | Some p =>
        if negb (Pharmacy.user p =? User._id (Req.user req))
        then (json_message 403 false "Not authorized to delete this medicine", db)
        else (json_message 200 true "Medicine deleted successfully",
              mkStore (pharmacies db)
                (remove_first (fun x => Medicine._id x =? Req.params req)
                   (medicines db))
                (reservations db))
    end.
Proof.
  intros Hfind.
  unfold deleteMedicine, Pharmacy_findById, Medicine_findByIdAndDelete,
    null_dereference.
  run_handler. rewrite Hfind.
  destruct (Pharmacy.findById (Medicine.pharmacy m) (pharmacies db)) as [p|];
    [|reflexivity].
  destruct (Pharmacy.user p =? User._id (Req.user req)); reflexivity.
Qed.

(** X16: a medicine whose pharmacy exists is deleted exactly when the
    principal is that pharmacy's owner: the call then succeeds and takes
    that document, and only it, out of the medicines; otherwise the store is
    the one it was given.  The role is not looked at, so an admin who is not
    the owner is answered 403.  Reservations of the medicine are not
    touched. *)
Theorem deleteMedicine_owner_only (B : Type) (req : Req.t ObjectId B)
    (db : Store) (m : Medicine.t) (p : Pharmacy.t) :
  Medicine.findById (Req.params req) (medicines db) = Some m ->
  Pharmacy.findById (Medicine.pharmacy m) (pharmacies db) = Some p ->
  (Succeeds (fst (deleteMedicine req db))
   <-> Pharmacy.user p = User._id (Req.user req))
  /\ (Pharmacy.user p <> User._id (Req.user req) ->
      deleteMedicine req db =
        (json_message 403 false "Not authorized to delete this medicine", db))
  /\ reservations (snd (deleteMedicine req db)) = reservations db
  /\ pharmacies (snd (deleteMedicine req db)) = pharmacies db
  /\ (Succeeds (fst (deleteMedicine req db)) ->
      exists l1 l2,
        medicines db = (l1 ++ m :: l2)%list
        /\ medicines (snd (deleteMedicine req db)) = (l1 ++ l2)%list
        /\ (forall x, In x l1 -> Medicine._id x <> Req.params req)).
Proof.
  intros Hm Hp. rewrite (deleteMedicine_found B req db m Hm), Hp.
  destruct (remove_first_split _ _ _ Hm) as (l1 & l2 & E1 & E2 & Hl1).
  assert (Hbefore : forall x, In x l1 -> Medicine._id x <> Req.params req)
    by (intros x Hx; apply Nat.eqb_neq; now apply Hl1).
  destruct (Nat.eqb_spec (Pharmacy.user p) (User._id (Req.user req))) as [Hu|Hu];
    cbn [negb andb orb fst snd pharmacies medicines reservations];
    (split; [split; intros; first [failure_case | solve [success_goal] | tauto]|]);
    (split; [intros; first [contradiction | reflexivity]|]);
    (split; [reflexivity|]); (split; [reflexivity|]);
    intros Hok; first [failure_case | exists l1, l2; repeat split; auto].
Qed.

Lemma deleteMedicine_owner_only_witness :
  deleteMedicine (Sample.del Sample.admin 20) Sample.db =
    (json_message 403 false "Not authorized to delete this medicine", Sample.db).
Proof.
  refine (proj1 (proj2 (deleteMedicine_owner_only unit (Sample.del Sample.admin 20)
                          Sample.db Sample.M1 Sample.P1 eq_refl eq_refl)) _).
  cbn. discriminate.
Defined.

Lemma Pharmacy_findById_removed id coll :
  NoDup (map Pharmacy._id coll) ->
  Pharmacy.findById id (remove_first (fun q => Pharmacy._id q =? id) coll) = None.
Proof.
  unfold Pharmacy.findById.
  induction coll as [|x coll IH]; cbn; intros Hnd; [reflexivity|].
  apply NoDup_cons_iff in Hnd. destruct Hnd as [Hx Hnd].
  destruct (Nat.eqb_spec (Pharmacy._id x) id) as [E|E].
  - destruct (find _ coll) as [y|] eqn:F; [|reflexivity].
    apply find_some in F. destruct F as [Hin Hy]. apply Nat.eqb_eq in Hy.
    exfalso. apply Hx. rewrite E, <- Hy. now apply in_map.
  - cbn. apply Nat.eqb_neq in E. rewrite E. now apply IH.
Qed.

(** X17: deleting a pharmacy strands its medicines.  When pharmacy [_id]s
    are unique, after a successful [deletePharmacy] every medicine that
    refers to the deleted pharmacy is still stored, and [deleteMedicine] on
    it is answered 500 "Server error" for every principal (the handler reads
    [pharmacy.user] of a pharmacy that is no longer there) and removes
    nothing. *)
Theorem medicines_of_deleted_pharmacy_stranded (B : Type)
    (req : Req.t ObjectId B) (db : Store) (m : Medicine.t) :
  NoDup (map Pharmacy._id (pharmacies db)) ->
  Succeeds (fst (deletePharmacy req db)) ->
  Medicine.findById (Medicine._id m) (medicines db) = Some m ->
  Medicine.pharmacy m = Req.params req ->
  let db' := snd (deletePharmacy req db) in
  Medicine.findById (Medicine._id m) (medicines db') = Some m
  /\ (forall (B' : Type) (req' : Req.t ObjectId B'),
        Req.params req' = Medicine._id m ->
        deleteMedicine req' db' = (json_message 500 false "Server error", db')).
Proof.
  intros Hnd Hok Hm Href. cbn zeta.
  destruct (Pharmacy.findById (Req.params req) (pharmacies db)) as [p|] eqn:Hfind.
  - rewrite (deletePharmacy_found B req db p Hfind) in *.
    match goal with |- context [if ?c then _ else _] => destruct c end;
      cbn [fst snd medicines] in *; [failure_case|].
    split; [exact Hm|].
    intros B' req' Hid.
    rewrite (deleteMedicine_found B' req' _ m) by (rewrite Hid; exact Hm).
    cbn [pharmacies]. rewrite Href, Pharmacy_findById_removed by exact Hnd.
    reflexivity.
  - assert (E : deletePharmacy req db =
                (json_message 404 false "Pharmacy not found", db)).
    { unfold deletePharmacy, Pharmacy_findById. run_handler. rewrite Hfind.
      reflexivity. }
    rewrite E in Hok. cbn [fst] in Hok. failure_case.
Qed.

Lemma medicines_of_deleted_pharmacy_stranded_witness :
  deleteMedicine (Sample.del Sample.owner 20)
    (snd (deletePharmacy (Sample.del Sample.owner 10) Sample.db))
  = (json_message 500 false "Server error",
     snd (deletePharmacy (Sample.del Sample.owner 10) Sample.db)).
Proof.
  assert (Hnd : NoDup (map Pharmacy._id (pharmacies Sample.db))).
  { cbn. repeat constructor. intros []. }
  assert (Hok : Succeeds (fst (deletePharmacy (Sample.del Sample.owner 10) Sample.db))).
  { unfold Succeeds. cbn. auto. }
  exact (proj2 (medicines_of_deleted_pharmacy_stranded unit
                  (Sample.del Sample.owner 10) Sample.db Sample.M1
                  Hnd Hok eq_refl eq_refl)
           unit (Sample.del Sample.owner 20) eq_refl).
Defined.

(** ** Reading a reservation *)

Lemma existsb_eqb_In (x : ObjectId) (l : list ObjectId) :
  In x l -> existsb (Nat.eqb x) l = true.
Proof.
  intros Hin. apply existsb_exists. exists x. split; [exact Hin | apply Nat.eqb_refl].
Qed.

Lemma Pharmacy_findById_id id coll p :
  Pharmacy.findById id coll = Some p -> Pharmacy._id p = id.
Proof.
  unfold Pharmacy.findById. intros H. apply find_some in H.
  now apply Nat.eqb_eq.
Qed.

(** [getReservation] on a reservation whose user and pharmacy documents
    exist. *)
Lemma getReservation_found (users : list ObjectId) (B : Type)
    (req : Req.t ObjectId B) (db : Store) (r : Reservation.t) (p : Pharmacy.t) :
  Reservation.findById (Req.params req) (reservations db) = Some r ->
  In (Reservation.user r) users ->
  Pharmacy.findById (Reservation.pharmacy r) (pharmacies db) = Some p ->
  getReservation users req db =
    if (User.role (Req.user req) =? "consumer")%string
       && negb (Reservation.user r =? User._id (Req.user req))
       || (User.role (Req.user req) =? "pharmacy")%string
          && negb (is_servicing_owner db (Req.user req) r)
    then (json_message 403 false "Not authorized to view this reservation", db)
    else (json_data 200 (ReservationDoc r), db).
Proof.
  intros Hfind Huser Hp.
  unfold getReservation, Reservation_findById_populate, populate, null_dereference,
    is_servicing_owner.
  run_handler. rewrite Hfind.
  cbn [populated_user populated_pharmacy doc].
  rewrite (existsb_eqb_In _ _ Huser), Hp, (Pharmacy_findById_id _ _ _ Hp).
  destruct (String.eqb_spec (User.role (Req.user req)) "consumer") as [Hc|Hc].
  - rewrite Hc. eval_tests_keep.
    destruct (Reservation.user r =? User._id (Req.user req)); reflexivity.
  - destruct (User.role (Req.user req) =? "pharmacy")%string; [|reflexivity].
    eval_tests_keep.
    destruct (Pharmacy.findOne _ (pharmacies db)) as [ph|]; [|reflexivity].
    destruct (Reservation.pharmacy r =? Pharmacy._id ph); reflexivity.
Qed.

(** [getReservation] never writes. *)
Lemma getReservation_store (users : list ObjectId) (B : Type)
    (req : Req.t ObjectId B) (db : Store) :
  snd (getReservation users req db) = db.
Proof.
  unfold getReservation, Reservation_findById_populate, populate, null_dereference.
  run_handler.
  destruct (Reservation.findById (Req.params req) (reservations db)) as [r|];
    [|reflexivity].
  cbn [populated_user populated_pharmacy doc].
  split_tests; reflexivity.
Qed.

(** X18: [getReservation] only reads, and it shows a reservation (whose user
    and pharmacy documents exist) exactly to those who may delete it: a
    consumer must be the requester, a pharmacy-role principal must own the
    servicing pharmacy, any other role always sees it.  A successful answer
    carries the stored document. *)
Theorem getReservation_view_permission (users : list ObjectId) (B : Type)
    (req : Req.t ObjectId B) (db : Store) (r : Reservation.t) (p : Pharmacy.t) :
  Reservation.findById (Req.params req) (reservations db) = Some r ->
  In (Reservation.user r) users ->
  Pharmacy.findById (Reservation.pharmacy r) (pharmacies db) = Some p ->
  (Succeeds (fst (getReservation users req db))
   <-> (User.role (Req.user req) = "consumer" ->
        Reservation.user r = User._id (Req.user req))
       /\ (User.role (Req.user req) = "pharmacy" ->
           is_servicing_owner db (Req.user req) r = true))
  /\ (Succeeds (fst (getReservation users req db)) ->
      fst (getReservation users req db) = json_data 200 (ReservationDoc r))
  /\ snd (getReservation users req db) = db.
Proof.
  intros Hfind Huser Hp.
  split; [|split; [|apply getReservation_store]];
    rewrite (getReservation_found users B req db r p Hfind Huser Hp).
  - destruct (String.eqb_spec (User.role (Req.user req)) "consumer") as [Hc|Hc];
      destruct (String.eqb_spec (User.role (Req.user req)) "pharmacy") as [Hph|Hph];
      destruct (Nat.eqb_spec (Reservation.user r) (User._id (Req.user req))) as [Hu|Hu];
      destruct (is_servicing_owner db (Req.user req) r);
      close_case.
  - match goal with |- context [if ?c then _ else _] => destruct c end;
      cbn [fst]; intros H; [failure_case | reflexivity].
Qed.

Lemma getReservation_view_permission_witness :
  Succeeds (fst (getReservation [3; 4] (Sample.del Sample.owner 30) Sample.db))
  /\ snd (getReservation [3; 4] (Sample.del Sample.owner 30) Sample.db) = Sample.db.
Proof.
  destruct (getReservation_view_permission [3; 4] unit (Sample.del Sample.owner 30)
              Sample.db Sample.R1 Sample.P1 eq_refl (or_introl eq_refl) eq_refl)
    as (Hiff & _ & Hdb).
  split; [|exact Hdb].
  apply Hiff. split; [discriminate | reflexivity].
Defined.

(** X19: a consumer can read back the reservation just created.  After a
    successful [createReservation] that returned document [r], a
    [getReservation] of [r._id] by the same consumer (whose user document
    exists) answers 200 with [r]. *)
Theorem created_reservation_read_back (users : list ObjectId) (now : Timestamp)
    (req : Req.t unit CreateReservationBody) (B : Type) (get : Req.t ObjectId B)
    (db db1 : Store) (r : Reservation.t) :
  createReservation now req db = (json_data 201 (ReservationDoc r), db1) ->
  User.role (Req.user req) = "consumer" ->
  In (User._id (Req.user req)) users ->
  Req.user get = Req.user req ->
  Req.params get = Reservation._id r ->
  getReservation users get db1 = (json_data 200 (ReservationDoc r), db1).
Proof.
  intros Hcreate Hrole Huser Hu Hid.
  assert (Hok : Response.success (fst (createReservation now req db)) = true)
    by (rewrite Hcreate; reflexivity).
  destruct (createReservation_success_inv now req db Hok)
    as (mid & m & _ & _ & _ & _ & _ & E).
  rewrite E in Hcreate. injection Hcreate as Hr Hdb1.
  assert (Hfind : Reservation.findById (Req.params get) (reservations db1) = Some r).
  { rewrite <- Hdb1, Hid. cbn [reservations]. rewrite Hr.
    apply findById_snoc_fresh; [|reflexivity].
    rewrite <- Hr. apply newObjectId_fresh. }
  assert (Hreq : Reservation.user r = User._id (Req.user req))
    by (rewrite <- Hr; reflexivity).
  unfold getReservation, Reservation_findById_populate, populate, null_dereference.
  run_handler. rewrite Hfind. cbn [populated_user populated_pharmacy doc].
  rewrite Hu, Hrole, Hreq, (existsb_eqb_In _ _ Huser), Nat.eqb_refl.
  reflexivity.
Qed.

Lemma created_reservation_read_back_witness :
  let r := Reservation.mk 32 4 20 10 "pending" 200 200 in
  let db1 := mkStore [Sample.P1] [Sample.M1; Sample.M2] [Sample.R1; Sample.R2; r] in
  getReservation [3; 4] (Sample.del Sample.U2 32) db1
  = (json_data 200 (ReservationDoc r), db1).
Proof.
  exact (created_reservation_read_back [3; 4] 200
           (Sample.post Sample.U2 (Some 20)) unit (Sample.del Sample.U2 32)
           Sample.db _ _ eq_refl eq_refl (or_intror (or_introl eq_refl))
           eq_refl eq_refl).
Defined.

(** ** Updating a pharmacy *)

(** X20: whatever Mongoose's [findByIdAndUpdate] does with the body,
    PUT /api/pharmacies/:id answers without writing in four cases: 400 on
    failed validation; on validated input, 500 when the id of the URL is not
    an ObjectId, 404 when it is one that no stored pharmacy has, and 403
    when it is the id of a pharmacy of which the principal is neither the
    owner nor an admin. *)
Theorem updatePharmacy_guards (UpdateBody : Type)
    (update : ObjectId -> UpdateBody -> Handler (option Pharmacy.t))
    (req : Req.t IdParam UpdateBody) (db : Store) :
  (validationResult req <> [] ->
   updatePharmacy update req db =
     (json_errors 400 "Validation failed" (validationResult req), db))
  /\ (forall raw,
        validationResult req = [] ->
        Req.params req = NotObjectId raw ->
        updatePharmacy update req db =
          (json_message 500 false "Server error", db))
  /\ (forall id,
        validationResult req = [] ->
        Req.params req = IsObjectId id ->
        Pharmacy.findById id (pharmacies db) = None ->
        updatePharmacy update req db =
          (json_message 404 false "Pharmacy not found", db))
  /\ (forall id p,
        validationResult req = [] ->
        Req.params req = IsObjectId id ->
        Pharmacy.findById id (pharmacies db) = Some p ->
        Pharmacy.user p <> User._id (Req.user req) ->
        User.role (Req.user req) <> "admin" ->
        updatePharmacy update req db =
          (json_message 403 false "Not authorized to update this pharmacy", db)).
Proof.
  unfold updatePharmacy, Pharmacy_findById, castObjectId. repeat split.
  - intros Hval. run_handler. destruct (Req.validation req); [contradiction|].
    reflexivity.
  - intros raw Hval Hid. run_handler. rewrite Hval, Hid. reflexivity.
  - intros id Hval Hid Hnone. run_handler. rewrite Hval, Hid, Hnone. reflexivity.
  - intros id p Hval Hid Hfind Hu Ha. run_handler. rewrite Hval, Hid, Hfind.
    apply Nat.eqb_neq in Hu. apply String.eqb_neq in Ha. rewrite Hu, Ha.
    reflexivity.
Qed.

Lemma updatePharmacy_guards_witness :
  updatePharmacy (fun _ (_ : unit) => ret None)
    (Req.mk Sample.U1 (IsObjectId 10) tt []) Sample.db
  = (json_message 403 false "Not authorized to update this pharmacy", Sample.db)
  /\ updatePharmacy (fun _ (_ : unit) => ret None)
       (Req.mk Sample.owner (NotObjectId "mypharmacy") tt []) Sample.db
     = (json_message 500 false "Server error", Sample.db).
Proof.
  split.
  - refine (proj2 (proj2 (proj2 (updatePharmacy_guards unit (fun _ _ => ret None)
                                   (Req.mk Sample.U1 (IsObjectId 10) tt [])
                                   Sample.db)))
              10 Sample.P1 eq_refl eq_refl eq_refl _ _); cbn; discriminate.
  - exact (proj1 (proj2 (updatePharmacy_guards unit (fun _ _ => ret None)
                           (Req.mk Sample.owner (NotObjectId "mypharmacy") tt [])
                           Sample.db))
             "mypharmacy" eq_refl eq_refl).
Defined.

(** ** Validation in front of the reservation create *)

